(** * AICX Stripe webhook -> Google Sheets founder ledger

    A shallow embedding of the two webhook programs of the repository:

    - [server.js]: the amount-based program ([resolveTier], [resolveCredits],
      an eleven-column ledger row);
    - the line-item-based program (second source file): the tier and the
      credits are read off a price table, the ledger row has eight columns.

    Numbers come in two embeddings.  [TierResolver] and the ledger rows use
    exact rationals ([Q]): the programs only divide an integer number of
    cents by 100, compare with integer thresholds, multiply by 1.3 and
    round.  [Binary64] is the same arithmetic on the binary64 numbers of
    JavaScript, where the quotient and the product are rounded; what is
    stated about the value of the fallback credits is stated there.
    [binary64_agrees] compares the two on concrete amounts; they part ways
    where the rounded product falls on the other side of a tie
    ([binary64_product_is_rounded], [binary64_product_reaches_tie]).  The
    session metadata is a finite map
    from strings; the price table is a finite map together with the lookup
    of a JavaScript object, which also finds inherited properties.  Console
    output is left out. *)

From Stdlib Require Import ZArith QArith Qround Lia List.
From Stdlib Require Import PrimFloat FloatOps SpecFloat FloatAxioms Uint63.
From stdpp Require Import gmap strings.
Import ListNotations.

Local Open Scope string_scope.
Local Open Scope list_scope.

(** ** JavaScript values used by the programs *)

Module JS.

(** Truthiness of a string: the empty string is falsy. *)
Definition truthy_str (s : string) : bool :=
  if decide (s = "") then false else true.

(** A property that may be [null]/[undefined] or hold a string: the
    value of [x || d]. *)
Definition or_str (x : option string) (d : string) : string :=
  match x with
  | Some s => if truthy_str s then s else d
  | None => d
  end.

(** [x || d] on an optional string, keeping the result optional
    (the left operand of a further [||]). *)
Definition or_opt (x y : option string) : option string :=
  match x with
  | Some s => if truthy_str s then Some s else y
  | None => y
  end.

(** Truthiness of an environment variable or nullable string. *)
Definition truthy (x : option string) : bool :=
  match x with
  | Some s => truthy_str s
  | None => false
  end.

(** [n || 0] on a number: zero is falsy. *)
Definition or_zero (q : Q) : Q :=
  if Qeq_bool q 0 then 0%Q else q.

(** [n || 0] on a nullable integer property. *)
Definition or_zero_opt (n : option Z) : Q :=
  match n with
  | Some z => or_zero (inject_Z z)
  | None => 0%Q
  end.

(** [Math.round]: the nearest integer, ties towards plus infinity. *)
Definition Math_round (q : Q) : Z := Qfloor (q + (1 # 2)).

(** A thrown [Error]; only its message is observed. *)
Record Error := mkError { message : string }.

End JS.

Import JS.

(** ** The checkout session received from the payment processor *)

Record CustomerDetails := { cd_email : option string }.

Record Session := {
  id : string;
  customer_details : option CustomerDetails;
  customer_email : option string;
  amount_total : option Z;                    (* cents; nullable *)
  metadata : option (gmap string string);
  customer : option string
}.

(** ** Tier and credits logic of [server.js] *)

Module TierResolver.

(** [session.metadata && session.metadata.tier], when truthy. *)
Definition metadata_tier (session : Session) : option string :=
  match metadata session with
  | Some m =>
      match m !! "tier" with
      | Some t => if truthy_str t then Some t else None
      | None => None
      end
  | None => None
  end.

(** [(session.amount_total || 0) / 100]: cents to dollars. *)
Definition amount_usd (session : Session) : Q :=
  or_zero_opt (amount_total session) / 100.

Definition resolveTier (session : Session) : string :=
  match metadata_tier session with
  | Some t => t
  | None =>
      let amountTotal := amount_usd session in
      if Qle_bool 5000 amountTotal then "Titan"
      else if Qle_bool 2000 amountTotal then "Gold"
      else if Qle_bool 750 amountTotal then "Silver"
      else if Qle_bool 250 amountTotal then "Bronze"
      else "Unknown"
  end.

Definition resolveCredits (tier : string) (amountTotal : Q) : Z :=
  let rounded := Math_round amountTotal in
  if (rounded =? 250)%Z then 325%Z
  else if (rounded =? 750)%Z then 1050%Z
  else if (rounded =? 2000)%Z then 3000%Z
  else if (rounded =? 5000)%Z then 8000%Z
  else Math_round (amountTotal * (13 # 10)).

(** The threshold table in the words of the specification: ordered
    definitions, the first matching one wins. *)
Definition tier_table : list (Z * string) :=
  [(5000%Z, "Titan"); (2000%Z, "Gold"); (750%Z, "Silver"); (250%Z, "Bronze")].

Definition no_tier_matched : string := "Unknown".

Definition classify_by_table (amount : Q) : string :=
  match List.find (fun d => Qle_bool (inject_Z (fst d)) amount) tier_table with
  | Some d => snd d
  | None => no_tier_matched
  end.

Fixpoint strictly_decreasing (l : list Z) : bool :=
  match l with
  | a :: ((b :: _) as tl) => (b <? a)%Z && strictly_decreasing tl
  | _ => true
  end.

End TierResolver.

(** A session that only carries an identifier and an amount. *)
Definition plain_session (sid : string) (cents : Z) : Session :=
  {| id := sid;
     customer_details := None;
     customer_email := None;
     amount_total := Some cents;
     metadata := None;
     customer := None |}.

(** ** The same arithmetic on binary64 numbers

    The numbers of JavaScript are binary64.  The computations of the tier
    and of the credits are repeated here on primitive floats, to be compared
    on concrete amounts with the exact ones above. *)

Module Binary64.

(** An integer below 2^53 in absolute value, as a number. *)
Definition of_Z (z : Z) : float :=
  if (0 <=? z)%Z then of_uint63 (Uint63.of_Z z)
  else PrimFloat.opp (of_uint63 (Uint63.of_Z (- z))).

(** The exact value of a finite number. *)
Definition to_Q (x : float) : option Q :=
  match Prim2SF x with
  | S754_zero _ => Some 0%Q
  | S754_finite s m e =>
      let magnitude :=
        if (0 <=? e)%Z then inject_Z (Z.pos m * 2 ^ e)
        else Z.pos m # Pos.pow 2 (Z.to_pos (- e)) in
      Some (if s then Qopp magnitude else magnitude)
  | S754_infinity _ | S754_nan => None
  end.

(** [Math.round] of a finite number. *)
Definition Math_round (x : float) : option Z :=
  option_map JS.Math_round (to_Q x).

(** [(session.amount_total || 0) / 100] *)
Definition amount_usd (cents : option Z) : float :=
  (of_Z (default 0%Z cents) / 100)%float.

(** The comparisons of [resolveTier]. *)
Definition tier_by_amount (amountTotal : float) : string :=
  if (5000 <=? amountTotal)%float then "Titan"
  else if (2000 <=? amountTotal)%float then "Gold"
  else if (750 <=? amountTotal)%float then "Silver"
  else if (250 <=? amountTotal)%float then "Bronze"
  else "Unknown".

(** The nearest binary64 number to 1.3, the value of the literal [1.3]. *)
Definition fallback_multiplier : float := 0x1.4cccccccccccdp+0%float.

(** [resolveCredits]; [None] stands for a result that is not finite. *)
Definition resolveCredits (tier : string) (amountTotal : float) : option Z :=
  match Math_round amountTotal with
  | Some rounded =>
      if (rounded =? 250)%Z then Some 325%Z
      else if (rounded =? 750)%Z then Some 1050%Z
      else if (rounded =? 2000)%Z then Some 3000%Z
      else if (rounded =? 5000)%Z then Some 8000%Z
      else Math_round (amountTotal * fallback_multiplier)%float
  | None => None
  end.

(** [resolveTier] *)
Definition resolveTier (session : Session) : string :=
  match TierResolver.metadata_tier session with
  | Some t => t
  | None => tier_by_amount (amount_usd (amount_total session))
  end.

(** The credits [handleCheckoutCompleted] computes for a session. *)
Definition credits (session : Session) : option Z :=
  resolveCredits (resolveTier session) (amount_usd (amount_total session)).

(** A number that is not positive: a zero, a negative number, or a number
    that is not one (which compares false with everything). *)
Definition not_positive (x : spec_float) : bool :=
  match x with
  | S754_nan | S754_zero _ => true
  | S754_finite s _ _ | S754_infinity s => s
  end.

(** Whether the binary64 and the exact computation give the same tier and
    the same credits for a session of [cents] cents without metadata. *)
Definition agrees (cents : Z) : bool :=
  let exact := TierResolver.amount_usd (plain_session "cs" cents) in
  bool_decide (tier_by_amount (amount_usd (Some cents))
               = TierResolver.resolveTier (plain_session "cs" cents))
  && bool_decide (resolveCredits "" (amount_usd (Some cents))
                  = Some (TierResolver.resolveCredits "" exact)).

(** The integers [lo], [lo + 1], ..., [lo + n - 1]. *)
Fixpoint upto (lo : Z) (n : nat) : list Z :=
  match n with
  | O => []
  | S k => lo :: upto (lo + 1) k
  end.

End Binary64.

(** ** Events, requests, responses *)

Record EventData := { object : Session }.

(** A verified event.  [data.object] is read for checkout-completed
    events only, where it is the session. *)
Record Event := { type : string; data : EventData }.

Record Request := {
  body : list Byte.byte;                      (* the raw payload *)
  stripe_signature : option string            (* header [stripe-signature] *)
}.

(** JSON bodies: booleans and objects with one property are all the
    programs send. *)
Inductive Json :=
| JBool (b : bool)
| JObject (key : string) (value : Json).

Inductive Payload :=
| Send (text : string)                        (* [res.send(text)] *)
| SendJson (j : Json).                        (* [res.json(j)] *)

Record Response := { status : Z; payload : Payload }.

(** ** The ledger and the outbound calls *)

Inductive Cell :=
| Str (s : string)
| Num (q : Q)
| Undef.                                      (* [undefined] *)

Definition Row := list Cell.

Record AppendRequest := {
  spreadsheetId : option string;
  range : string;
  valueInputOption : string;
  values : list Row
}.

Record Price := { price_id : string }.
Record LineItem := { price : option Price }.
Record LineItemList := { li_data : option (list LineItem) }.

Inductive Call :=
| ConstructEvent (raw : list Byte.byte) (sig secret : option string)
| ListLineItems (session_id : string) (limit : Z)
| SheetsAppend (req : AppendRequest).

(** The world a request runs in: the rows of the external sheet and the
    calls made to the collaborators so far. *)
Record World := { ledger : list Row; trace : list Call }.

(** The collaborators at the time of a delivery. *)
Record Env := {
  stripe_constructEvent :
    list Byte.byte -> option string -> option string -> Event + Error;
  stripe_listLineItems : string -> Z -> LineItemList + Error;
  sheets_append : AppendRequest -> option Error;   (* [None]: appended *)
  now : Z;                                         (* [new Date()] *)
  toISOString : Z -> string;
  toLocaleString_en_US_Chicago : Z -> string
}.

(** ** Effects: state passing with exceptions *)

Inductive Outcome (A : Type) :=
| Returned (a : A)
| Thrown (e : Error).
Arguments Returned {A} a.
Arguments Thrown {A} e.

Definition M (A : Type) : Type := World -> Outcome A * World.

#[export] Instance M_ret : MRet M := fun A a w => (Returned a, w).

#[export] Instance M_bind : MBind M := fun A B f m w =>
  match m w with
  | (Returned a, w') => f a w'
  | (Thrown e, w') => (Thrown e, w')
  end.

Definition throw {A} (e : Error) : M A := fun w => (Thrown e, w).

(** [try { m } catch (err) { h err }] *)
Definition try_catch {A} (m : M A) (h : Error -> M A) : M A := fun w =>
  match m w with
  | (Returned a, w') => (Returned a, w')
  | (Thrown e, w') => h e w'
  end.

(** [try { x = m } catch (err) { ... }] with the catch clause left to the
    caller: the value or the error caught. *)
Definition attempt {A} (m : M A) : M (A + Error) := fun w =>
  match m w with
  | (Returned a, w') => (Returned (inl a), w')
  | (Thrown e, w') => (Returned (inr e), w')
  end.

Definition record_call (c : Call) (w : World) : World :=
  {| ledger := ledger w; trace := trace w ++ [c] |}.

Definition of_sum {A} (r : A + Error) : Outcome A :=
  match r with
  | inl a => Returned a
  | inr e => Thrown e
  end.

Definition constructEvent (env : Env) (raw : list Byte.byte)
    (sig secret : option string) : M Event := fun w =>
  (of_sum (stripe_constructEvent env raw sig secret),
   record_call (ConstructEvent raw sig secret) w).

Definition listLineItems (env : Env) (session_id : string) (limit : Z)
    : M LineItemList := fun w =>
  (of_sum (stripe_listLineItems env session_id limit),
   record_call (ListLineItems session_id limit) w).

(** [sheetsClient.spreadsheets.values.append]: one call; either it throws
    and nothing is written, or all rows of the request are appended.  The
    ledger is the external store, and that a call which throws has written
    nothing is what is assumed of its append operation (atomic per call),
    not something the programs ensure: what the programs do is the call, kept
    in the trace. *)
Definition values_append (env : Env) (req : AppendRequest) : M unit := fun w =>
  let w' := record_call (SheetsAppend req) w in
  match sheets_append env req with
  | Some e => (Thrown e, w')
  | None => (Returned tt, {| ledger := ledger w' ++ values req; trace := trace w' |})
  end.

(** ** Process environment *)

Record ProcessEnv := {
  PORT : option string;
  STRIPE_SECRET_KEY : option string;
  STRIPE_WEBHOOK_SECRET : option string;
  GOOGLE_SHEETS_SPREADSHEET_ID : option string;
  GOOGLE_SHEETS_TAB_NAME : option string;
  GOOGLE_SERVICE_ACCOUNT_KEY : option string;
  GOOGLE_SERVICE_ACCOUNT_KEY_JSON : option string
}.

(** What the process sees of its host at start: files, and whether a text
    parses as JSON. *)
Record Host := {
  readFileSync : string -> option string;     (* [None]: throws *)
  JSON_parse_ok : string -> bool;
  listen_ok : string -> bool                  (* [app.listen(port)] succeeds *)
}.

Inductive Boot :=
| Exit (code : Z)            (* [process.exit(code)], or an uncaught error *)
| Listening (port : string). (* the server listens on [port] *)

Definition checkout_session_completed : string := "checkout.session.completed".

(** ** [server.js] *)

Module Server.

Record FounderRecord := {
  timestampUtc : string;
  timestampLocal : string;
  email : string;
  tier : string;
  amountTotal : Q;
  credits : Z;
  sessionId : string;
  customerId : string;
  notes : string;
  agreementVersion : string
}.

Definition AGREEMENT_VERSION : string := "v1.0".

(** Loading the service-account credentials: the environment variable
    with the full JSON is preferred, a local file is the fallback. *)
Definition credentials_from_file (penv : ProcessEnv) (host : Host) : bool :=
  let jsonPath :=
    or_str (GOOGLE_SERVICE_ACCOUNT_KEY_JSON penv) "./service-account.json" in
  match readFileSync host jsonPath with
  | Some raw => JSON_parse_ok host raw
  | None => false
  end.

Definition credentials_ok (penv : ProcessEnv) (host : Host) : bool :=
  match GOOGLE_SERVICE_ACCOUNT_KEY penv with
  | Some key =>
      if truthy_str key then JSON_parse_ok host key
      else credentials_from_file penv host
  | None => credentials_from_file penv host
  end.

(** The code at process scope: the secret key and the service-account
    credentials are checked, then [app.listen(PORT)] is called.  When the
    call fails (a port out of range, a port in use) nothing catches the
    error and the process ends with code 1. *)
Definition boot (penv : ProcessEnv) (host : Host) : Boot :=
  if negb (truthy (STRIPE_SECRET_KEY penv)) then Exit 1
  else if negb (credentials_ok penv host) then Exit 1
  else
    let PORT := or_str (PORT penv) "8080" in
    if listen_ok host PORT then Listening PORT else Exit 1.

Section Handlers.

Variable penv : ProcessEnv.
Variable env : Env.

Definition SPREADSHEET_ID : option string := GOOGLE_SHEETS_SPREADSHEET_ID penv.
Definition SHEET_NAME : string := or_str (GOOGLE_SHEETS_TAB_NAME penv) "Sheet1".

(** The row built by [appendToSheet], columns A to K. *)
Definition sheet_row (founder : FounderRecord) : Row :=
  [ Str (timestampUtc founder);                          (* A *)
    Str (timestampLocal founder);                        (* B *)
    Str (or_str (Some (email founder)) "");              (* C *)
    Str (or_str (Some (tier founder)) "");               (* D *)
    Num (or_zero (amountTotal founder));                 (* E *)
    Num (or_zero (inject_Z (credits founder)));          (* F *)
    Str (or_str (Some (sessionId founder)) "");          (* G *)
    Str (or_str (Some (customerId founder)) "");         (* H *)
    Str (or_str (Some (notes founder)) "");              (* I *)
    Str "";                                              (* J *)
    Str (or_str (Some (agreementVersion founder)) "")    (* K *)
  ].

(** The argument of [sheetsClient.spreadsheets.values.append]. *)
Definition append_request (row : Row) : AppendRequest :=
  {| spreadsheetId := SPREADSHEET_ID;
     range := SHEET_NAME +:+ "!A:K";
     valueInputOption := "USER_ENTERED";
     values := [row] |}.

Definition appendToSheet (founder : FounderRecord) : M unit :=
  let row := sheet_row founder in
  values_append env (append_request row).

(** The record built by [handleCheckoutCompleted]. *)
Definition founderRecord (session : Session) : FounderRecord :=
  let email :=
    or_str
      (or_opt (match customer_details session with
               | Some d => cd_email d
               | None => None
               end)
              (customer_email session))
      "" in
  let amountTotal := TierResolver.amount_usd session in
  let tier := TierResolver.resolveTier session in
  let credits := TierResolver.resolveCredits tier amountTotal in
  let timestampUtc := toISOString env (now env) in
  let timestampLocal := toLocaleString_en_US_Chicago env (now env) in
  {| timestampUtc := timestampUtc;
     timestampLocal := timestampLocal;
     email := email;
     tier := tier;
     amountTotal := amountTotal;
     credits := credits;
     sessionId := id session;
     customerId := or_str (customer session) "";
     notes := "";
     agreementVersion := AGREEMENT_VERSION |}.

Definition handleCheckoutCompleted (session : Session) : M unit :=
  try_catch
    (appendToSheet (founderRecord session))
    (fun err => throw err).

(** [app.post('/stripe-webhook', ...)] *)
Definition stripe_webhook (req : Request) : M Response :=
  let sig := stripe_signature req in
  if negb (truthy (STRIPE_WEBHOOK_SECRET penv)) then
    mret {| status := 500; payload := Send "Webhook secret not configured" |}
  else
    verified ← attempt
      (constructEvent env (body req) sig (STRIPE_WEBHOOK_SECRET penv));
    match verified with
    | inr err =>
        mret {| status := 400;
                payload := Send ("Webhook Error: " +:+ message err) |}
    | inl event =>
        try_catch
          ((if String.eqb (type event) checkout_session_completed
            then handleCheckoutCompleted (object (data event))
            else mret tt) ;;
           mret {| status := 200;
                   payload := SendJson (JObject "received" (JBool true)) |})
          (fun err =>
             mret {| status := 500; payload := Send "Internal Server Error" |})
    end.

End Handlers.

End Server.

(** ** The line-item-based program *)

Module LineItemVariant.

Record TierConfig := { tier : string; contribution : Z; credits : Z }.

(** Stripe price identifiers mapped to tiers and credits: the four own
    properties of the object literal. *)
Definition TIER_CONFIG : gmap string TierConfig :=
  <[ "price_1SWcyzHeOH2hxFO3a1RWyyv1" :=
       {| tier := "Bronze"; contribution := 250; credits := 325 |} ]>
  (<[ "price_1SWd8MHeOH2hxFO3PycEn43V" :=
       {| tier := "Silver"; contribution := 750; credits := 1050 |} ]>
  (<[ "price_1SWdDaHeOH2hxFO31X6W21AK" :=
       {| tier := "Gold"; contribution := 2000; credits := 3000 |} ]>
  (<[ "price_1SWdGPHeOH2hxFO3ZsLDEvhK" :=
       {| tier := "Titan"; contribution := 5000; credits := 8000 |} ]>
   ∅))).

(** The names every object inherits from [Object.prototype]. *)
Definition Object_prototype : list string :=
  [ "constructor"; "__defineGetter__"; "__defineSetter__"; "hasOwnProperty";
    "__lookupGetter__"; "__lookupSetter__"; "isPrototypeOf";
    "propertyIsEnumerable"; "toString"; "valueOf"; "__proto__";
    "toLocaleString" ].

(** The value of [TIER_CONFIG[priceId]]: an own entry; or a member of
    [Object.prototype], a function or an object without [tier] and
    [credits]; or [undefined]. *)
Inductive ConfigValue :=
| OwnEntry (config : TierConfig)
| Inherited
| NoProperty.

Definition TIER_CONFIG_get (priceId : string) : ConfigValue :=
  match TIER_CONFIG !! priceId with
  | Some config => OwnEntry config
  | None =>
      if bool_decide (priceId ∈ Object_prototype) then Inherited
      else NoProperty
  end.

(** Truthiness of the value looked up: only [undefined] is falsy. *)
Definition truthy_config (config : ConfigValue) : bool :=
  match config with
  | NoProperty => false
  | OwnEntry _ | Inherited => true
  end.

(** [config.tier] and [config.credits] *)
Definition config_tier (config : ConfigValue) : Cell :=
  match config with
  | OwnEntry c => Str (tier c)
  | Inherited | NoProperty => Undef
  end.

Definition config_credits (config : ConfigValue) : Cell :=
  match config with
  | OwnEntry c => Num (inject_Z (credits c))
  | Inherited | NoProperty => Undef
  end.

Section Handlers.

Variable penv : ProcessEnv.
Variable env : Env.

Definition endpointSecret : option string := STRIPE_WEBHOOK_SECRET penv.

(** The row built by [appendToSheet], columns A to H; [tier] and [credits]
    are what [config.tier] and [config.credits] evaluated to. *)
Definition sheet_values (timestamp email : string) (tier : Cell)
    (amountTotal : Q) (credits : Cell) (sessionId customerId : string) : Row :=
  [ Str timestamp; Str email; tier; Num amountTotal;
    credits; Str sessionId; Str customerId; Str "" ].

(** That row for a tier name and a number of credits. *)
Definition sheet_row (timestamp email tier : string) (amountTotal : Q)
    (credits : Z) (sessionId customerId : string) : Row :=
  sheet_values timestamp email (Str tier) amountTotal (Num (inject_Z credits))
    sessionId customerId.

(** The argument of [sheetsClient.spreadsheets.values.append]. *)
Definition append_request (values : list Row) : AppendRequest :=
  let spreadsheetId := GOOGLE_SHEETS_SPREADSHEET_ID penv in
  let tabName := or_str (GOOGLE_SHEETS_TAB_NAME penv) "Sheet1" in
  let range := tabName +:+ "!A:H" in
  {| spreadsheetId := spreadsheetId;
     range := range;
     valueInputOption := "USER_ENTERED";
     values := values |}.

Definition appendToSheet (timestamp email : string) (tier : Cell)
    (amountTotal : Q) (credits : Cell) (sessionId customerId : string)
    : M unit :=
  let values :=
    [ sheet_values timestamp email tier amountTotal credits sessionId
        customerId ] in
  values_append env (append_request values).

(** [session.customer_details?.email || session.customer_email || 'unknown'] *)
Definition founder_email (session : Session) : string :=
  or_str
    (or_opt (match customer_details session with
             | Some d => cd_email d
             | None => None
             end)
            (customer_email session))
    "unknown".

(** [session.amount_total / 100]; a [null] amount divides as zero. *)
Definition amount_usd (session : Session) : Q :=
  inject_Z (default 0%Z (amount_total session)) / 100.

Definition handleCheckoutCompleted (session : Session) : M unit :=
  lineItems ← listLineItems env (id session) 10;
  match li_data lineItems with
  | None | Some [] => throw (mkError "No line items found on session")
  | Some (firstItem :: _) =>
      match price firstItem with
      | None =>
          throw (mkError "Cannot read properties of null (reading 'id')")
      | Some p =>
          let priceId := price_id p in
          let config := TIER_CONFIG_get priceId in
          if negb (truthy_config config) then
            throw (mkError ("Unknown price ID: " +:+ priceId))
          else
            let email := founder_email session in
            let amountTotal := amount_usd session in
            let timestamp := toISOString env (now env) in
            let tier := config_tier config in
            let credits := config_credits config in
            let sessionId := id session in
            let customerId := or_str (customer session) "" in
            appendToSheet timestamp email tier amountTotal credits
              sessionId customerId
      end
  end.

(** [app.post('/stripe-webhook', bodyParser.raw(...), ...)] *)
Definition stripe_webhook (req : Request) : M Response :=
  let sig := stripe_signature req in
  verified ← attempt (constructEvent env (body req) sig endpointSecret);
  match verified with
  | inr err =>
      mret {| status := 400;
              payload := Send ("Webhook Error: " +:+ message err) |}
  | inl event =>
      if String.eqb (type event) checkout_session_completed then
        let session := object (data event) in
        try_catch
          (handleCheckoutCompleted session ;;
           mret {| status := 200; payload := Send "Received and processed" |})
          (fun err => mret {| status := 500; payload := Send "Server error" |})
      else
        mret {| status := 200; payload := Send "Event ignored" |}
  end.

End Handlers.

End LineItemVariant.

(** ** Observations on a world *)

(** The append requests among the calls of a trace, in order. *)
Definition append_requests (t : list Call) : list AppendRequest :=
  omap (fun c => match c with SheetsAppend r => Some r | _ => None end) t.

(** The signature checks attempted in a trace. *)
Definition verifications (t : list Call) : list Call :=
  List.filter (fun c => match c with ConstructEvent _ _ _ => true | _ => false end) t.

(** A session carries no tier metadata: no metadata at all, or metadata
    without a [tier], or with an empty one. *)
Definition no_tier_metadata (session : Session) : Prop :=
  metadata session = None \/
  exists m : gmap string string,
    metadata session = Some m /\ (m !! "tier" = None \/ m !! "tier" = Some "").

(** The session without its metadata, all else equal. *)
Definition without_metadata (session : Session) : Session :=
  {| id := id session;
     customer_details := customer_details session;
     customer_email := customer_email session;
     amount_total := amount_total session;
     metadata := None;
     customer := customer session |}.

(** The session with another amount, all else equal. *)
Definition with_amount (session : Session) (cents : option Z) : Session :=
  {| id := id session;
     customer_details := customer_details session;
     customer_email := customer_email session;
     amount_total := cents;
     metadata := metadata session;
     customer := customer session |}.

(** The process environment with another signing secret. *)
Definition with_webhook_secret (penv : ProcessEnv) (secret : option string)
    : ProcessEnv :=
  {| PORT := PORT penv;
     STRIPE_SECRET_KEY := STRIPE_SECRET_KEY penv;
     STRIPE_WEBHOOK_SECRET := secret;
     GOOGLE_SHEETS_SPREADSHEET_ID := GOOGLE_SHEETS_SPREADSHEET_ID penv;
     GOOGLE_SHEETS_TAB_NAME := GOOGLE_SHEETS_TAB_NAME penv;
     GOOGLE_SERVICE_ACCOUNT_KEY := GOOGLE_SERVICE_ACCOUNT_KEY penv;
     GOOGLE_SERVICE_ACCOUNT_KEY_JSON := GOOGLE_SERVICE_ACCOUNT_KEY_JSON penv |}.

(** The collaborators with another answer of the line-item listing. *)
Definition with_line_items (env : Env) (items : LineItemList) : Env :=
  {| stripe_constructEvent := stripe_constructEvent env;
     stripe_listLineItems := fun _ _ => inl items;
     sheets_append := sheets_append env;
     now := now env;
     toISOString := toISOString env;
     toLocaleString_en_US_Chicago := toLocaleString_en_US_Chicago env |}.

(** The request [server.js] sends to the sheet for a founder record. *)
Definition server_request (penv : ProcessEnv) (founder : Server.FounderRecord)
    : AppendRequest :=
  Server.append_request penv (Server.sheet_row founder).

(** The row the line-item program writes for a session priced by [config]. *)
Definition line_item_row (env : Env) (session : Session)
    (config : LineItemVariant.TierConfig) : Row :=
  LineItemVariant.sheet_row
    (toISOString env (now env))
    (LineItemVariant.founder_email session)
    (LineItemVariant.tier config)
    (LineItemVariant.amount_usd session)
    (LineItemVariant.credits config)
    (id session)
    (or_str (customer session) "").

(** The names the specification gives to the columns of a ledger row. *)
Inductive Column :=
| TimestampUTC | TimestampLocal | Email | Tier | AmountPaidUSD | Credits
| SessionID | CustomerID | Notes | Status | AgreementVersion.

Definition ledger_schema : list Column :=
  [ TimestampUTC; TimestampLocal; Email; Tier; AmountPaidUSD; Credits;
    SessionID; CustomerID; Notes; Status; AgreementVersion ].

(** The position of a column in the schema. *)
Definition column_index (c : Column) : nat :=
  match c with
  | TimestampUTC => 0 | TimestampLocal => 1 | Email => 2 | Tier => 3
  | AmountPaidUSD => 4 | Credits => 5 | SessionID => 6 | CustomerID => 7
  | Notes => 8 | Status => 9 | AgreementVersion => 10
  end.

(** The two errors [handleCheckoutCompleted] of the line-item program
    throws for an event it cannot price. *)
Definition MalformedEvent (e : Error) : Prop :=
  message e = "No line items found on session" \/
  exists priceId : string, message e = "Unknown price ID: " +:+ priceId.

(** ** Sample deliveries *)

Module Sample.

Definition world0 : World := {| ledger := []; trace := [] |}.

Definition penv (secret : option string) : ProcessEnv :=
  {| PORT := None;
     STRIPE_SECRET_KEY := Some "sk_test_51";
     STRIPE_WEBHOOK_SECRET := secret;
     GOOGLE_SHEETS_SPREADSHEET_ID := Some "sheet-founders";
     GOOGLE_SHEETS_TAB_NAME := None;
     GOOGLE_SERVICE_ACCOUNT_KEY := Some "{}";
     GOOGLE_SERVICE_ACCOUNT_KEY_JSON := None |}.

Definition host : Host :=
  {| readFileSync := fun _ => None;
     JSON_parse_ok := fun _ => true;
     listen_ok := fun port => bool_decide (port = "8080") |}.

Definition good_signature : string := "t=1,v1=5257a869".
Definition whsec : string := "whsec_test".

(** Collaborators that accept [good_signature] under [whsec] as a
    signature of [event], list [items] for every session and accept
    every append. *)
Definition env (event : Event) (items : LineItemList) : Env :=
  {| stripe_constructEvent := fun _ sig secret =>
       match sig with
       | None => inr (mkError "No stripe-signature header value was provided.")
       | Some v =>
           if decide (v = good_signature /\ secret = Some whsec)
           then inl event
           else inr (mkError "No signatures found matching the expected signature for payload.")
       end;
     stripe_listLineItems := fun _ _ => inl items;
     sheets_append := fun _ => None;
     now := 1762110000000;
     toISOString := fun _ => "2025-11-02T19:00:00.000Z";
     toLocaleString_en_US_Chicago := fun _ => "11/2/2025, 1:00:00 PM" |}.

Definition event_of (ty : string) (session : Session) : Event :=
  {| type := ty; data := {| object := session |} |}.

Definition signed : Request :=
  {| body := []; stripe_signature := Some good_signature |}.

Definition unsigned : Request :=
  {| body := []; stripe_signature := None |}.

Definition no_items : LineItemList := {| li_data := Some [] |}.

Definition item (priceId : string) : LineItem :=
  {| price := Some {| price_id := priceId |} |}.

Definition bronze_price : string := "price_1SWcyzHeOH2hxFO3a1RWyyv1".
Definition titan_price : string := "price_1SWdGPHeOH2hxFO3ZsLDEvhK".

Definition configured : ProcessEnv := penv (Some whsec).

(** A checkout-completed event for a 5000.00 dollar session. *)
Definition checkout_event : Event :=
  event_of checkout_session_completed (plain_session "cs_test_checkout" 500000).

(** Its line items: the Bronze price first, the Titan price second. *)
Definition checkout_env : Env :=
  env checkout_event {| li_data := Some [item bronze_price; item titan_price] |}.

End Sample.

(** The place of a tier name in the threshold table, the sentinel and any
    other name lowest. *)
Definition tier_rank (t : string) : nat :=
  if String.eqb t "Titan" then 4
  else if String.eqb t "Gold" then 3
  else if String.eqb t "Silver" then 2
  else if String.eqb t "Bronze" then 1
  else 0.

(** The collaborators with another answer of the sheet. *)
Definition with_sheet (env : Env) (answer : option Error) : Env :=
  {| stripe_constructEvent := stripe_constructEvent env;
     stripe_listLineItems := stripe_listLineItems env;
     sheets_append := fun _ => answer;
     now := now env;
     toISOString := toISOString env;
     toLocaleString_en_US_Chicago := toLocaleString_en_US_Chicago env |}.

(** The host with other files. *)
Definition with_files (host : Host) (files : string -> option string) : Host :=
  {| readFileSync := files;
     JSON_parse_ok := JSON_parse_ok host;
     listen_ok := listen_ok host |}.

(** A session whose metadata names the tier "Gold" and whose amount is
    10.00 dollars. *)
Definition gold_override_session : Session :=
  {| id := "cs_test_override";
     customer_details := None;
     customer_email := None;
     amount_total := Some 1000%Z;
     metadata := Some {[ "tier" := "Gold" ]};
     customer := None |}.

(** * Tier resolver *)

Section TierResolverFacts.

Import TierResolver.
Local Open Scope Q_scope.

Lemma Math_round_comp (a b : Q) : a == b -> Math_round a = Math_round b.
Proof. intros H. unfold Math_round. now rewrite H. Qed.

Lemma Math_round_nonpos (a : Q) : a <= 0 -> (Math_round a <= 0)%Z.
Proof.
  intros H. unfold Math_round.
  assert (Hle : a + (1 # 2) <= 1 # 2).
  { unfold Qle, Qplus in *; simpl in *. lia. }
  apply Qfloor_resp_le in Hle. exact Hle.
Qed.

Lemma resolveCredits_fallback (tier : string) (a : Q) :
  Math_round a <> 250%Z -> Math_round a <> 750%Z ->
  Math_round a <> 2000%Z -> Math_round a <> 5000%Z ->
  resolveCredits tier a = Math_round (a * (13 # 10)).
Proof.
  intros H1 H2 H3 H4. unfold resolveCredits.
  apply Z.eqb_neq in H1, H2, H3, H4.
  now rewrite H1, H2, H3, H4.
Qed.

Lemma resolveCredits_comp (tier : string) (a b : Q) :
  a == b -> resolveCredits tier a = resolveCredits tier b.
Proof.
  intros H. unfold resolveCredits.
  rewrite (Math_round_comp a b H).
  assert (H13 : a * (13 # 10) == b * (13 # 10)) by now rewrite H.
  now rewrite (Math_round_comp _ _ H13).
Qed.

Lemma Qle_bool_false (x y : Q) : Qle_bool x y = false <-> y < x.
Proof.
  split; intros H.
  - apply Qnot_le_lt. intros Hle. apply Qle_bool_iff in Hle. congruence.
  - destruct (Qle_bool x y) eqn:E; [| reflexivity].
    apply Qle_bool_iff in E. exfalso. now apply (Qlt_not_le _ _ H).
Qed.

(** The chain of comparisons of [resolveTier] is the first-match lookup
    in the descending table. *)
Lemma resolveTier_classify (session : Session) :
  metadata_tier session = None ->
  resolveTier session = classify_by_table (amount_usd session).
Proof.
  intros Hm. unfold resolveTier, classify_by_table, tier_table. rewrite Hm.
  cbn [List.find fst snd].
  change (inject_Z 5000) with 5000%Q. change (inject_Z 2000) with 2000%Q.
  change (inject_Z 750) with 750%Q. change (inject_Z 250) with 250%Q.
  repeat (match goal with |- context [Qle_bool ?x ?y] =>
                            destruct (Qle_bool x y) end; try reflexivity).
Qed.

Lemma or_zero_eq (q : Q) : (or_zero q == q)%Q.
Proof.
  unfold or_zero. destruct (Qeq_bool q 0) eqn:E; [| reflexivity].
  apply Qeq_bool_eq in E. now symmetry.
Qed.

Lemma Math_round_upper (a : Q) : inject_Z (Math_round a) <= a + (1 # 2).
Proof. unfold Math_round. apply Qfloor_le. Qed.

Lemma Math_round_lower (a : Q) : a - (1 # 2) < inject_Z (Math_round a).
Proof.
  unfold Math_round.
  pose proof (Qlt_floor (a + (1 # 2))) as H.
  rewrite inject_Z_plus in H.
  apply (Qplus_lt_l _ _ 1).
  assert (E : a - (1 # 2) + 1 == a + (1 # 2)) by ring.
  rewrite E. exact H.
Qed.

Lemma no_tier_metadata_tier (session : Session) :
  no_tier_metadata session -> metadata_tier session = None.
Proof.
  unfold metadata_tier.
  intros [-> | (m & -> & [-> | ->])]; reflexivity.
Qed.

Lemma tier_of_cents (session : Session) (cents : Z) :
  metadata_tier session = None ->
  amount_total session = Some cents ->
  resolveTier session =
    if (500000 <=? cents)%Z then "Titan"
    else if (200000 <=? cents)%Z then "Gold"
    else if (75000 <=? cents)%Z then "Silver"
    else if (25000 <=? cents)%Z then "Bronze"
    else "Unknown".
Proof.
  intros Hm Hc. unfold resolveTier, amount_usd. rewrite Hm, Hc.
  assert (Hle : forall t : Z,
             Qle_bool (inject_Z t) (or_zero_opt (Some cents) / 100)
             = (t * 100 <=? cents)%Z).
  { intros t. apply Bool.eq_iff_eq_true.
    rewrite Qle_bool_iff, Z.leb_le. unfold or_zero_opt.
    rewrite or_zero_eq.
    unfold Qle, Qdiv, Qmult, Qinv, inject_Z; simpl. lia. }
  change 5000 with (inject_Z 5000). change 2000 with (inject_Z 2000).
  change 750 with (inject_Z 750). change 250 with (inject_Z 250).
  rewrite !Hle. reflexivity.
Qed.

End TierResolverFacts.

(** * Binary64 arithmetic on amounts that are not positive *)

Section Binary64Facts.

Local Open Scope string_scope.

Lemma binary_round_aux_sign (s : bool) (m e : Z) (l : location) :
  match binary_round_aux prec emax s m e l with
  | S754_nan => True
  | S754_zero s' | S754_finite s' _ _ | S754_infinity s' => s' = s
  end.
Proof.
  unfold binary_round_aux.
  destruct (shr_fexp prec emax m e l) as [mrs' e'].
  destruct (shr_fexp prec emax _ e' loc_Exact) as [mrs'' e''].
  destruct (shr_m mrs''); [reflexivity | | exact I].
  destruct (e'' <=? emax - prec)%Z; reflexivity.
Qed.

Lemma of_Z_not_positive (c : Z) :
  (c <= 0)%Z -> Binary64.not_positive (Prim2SF (Binary64.of_Z c)) = true.
Proof.
  intros Hc. unfold Binary64.of_Z.
  destruct (0 <=? c)%Z eqn:E.
  - apply Z.leb_le in E. assert (c = 0%Z) as -> by lia. reflexivity.
  - rewrite FloatAxioms.opp_spec, FloatAxioms.of_uint63_spec.
    pose proof (Uint63.to_Z_bounded (Uint63.of_Z (- c))) as [Hn _].
    destruct (Uint63.to_Z (Uint63.of_Z (- c))) as [| p | p]; [reflexivity | | lia].
    unfold binary_normalize, binary_round.
    destruct (shl_align _ _ _) as [mz ez].
    pose proof (binary_round_aux_sign false (Z.pos mz) ez loc_Exact) as Hs.
    destruct (binary_round_aux _ _ _ _ _ _); simpl; try rewrite Hs; reflexivity.
Qed.

Lemma hundred_spec :
  exists m e, Prim2SF 100%float = S754_finite false m e.
Proof. vm_compute. eauto. Qed.

Lemma multiplier_spec :
  exists m e, Prim2SF Binary64.fallback_multiplier = S754_finite false m e.
Proof. vm_compute. eauto. Qed.

Lemma div_not_positive (x : float) :
  Binary64.not_positive (Prim2SF x) = true ->
  Binary64.not_positive (Prim2SF (x / 100)%float) = true.
Proof.
  intros H. rewrite FloatAxioms.div_spec.
  destruct hundred_spec as (m & e & ->).
  unfold SF64div, SFdiv.
  destruct (Prim2SF x) as [s | s | | s mx ex]; simpl in *; subst;
    try reflexivity.
  destruct (SFdiv_core_binary _ _ _ _ _ _) as [[mz ez] lz].
  pose proof (binary_round_aux_sign (xorb true false) mz ez lz) as Hs.
  destruct (binary_round_aux _ _ _ _ _ _); simpl; try rewrite Hs; reflexivity.
Qed.

Lemma mul_not_positive (a : float) :
  Binary64.not_positive (Prim2SF a) = true ->
  Binary64.not_positive (Prim2SF (a * Binary64.fallback_multiplier)%float) = true.
Proof.
  intros H. rewrite FloatAxioms.mul_spec.
  destruct multiplier_spec as (m & e & ->).
  unfold SF64mul, SFmul.
  destruct (Prim2SF a) as [s | s | | s mx ex]; simpl in *; subst;
    try reflexivity.
  pose proof (binary_round_aux_sign (xorb true false)
                (Z.pos (mx * m)) (ex + e) loc_Exact) as Hs.
  destruct (binary_round_aux _ _ _ _ _ _); simpl; try rewrite Hs; reflexivity.
Qed.

Lemma amount_not_positive (cents : option Z) :
  cents = None \/ (exists c, cents = Some c /\ (c <= 0)%Z) ->
  Binary64.not_positive (Prim2SF (Binary64.amount_usd cents)) = true.
Proof.
  intros H. unfold Binary64.amount_usd. apply div_not_positive.
  destruct H as [-> | (c & -> & Hc)]; [reflexivity |].
  now apply of_Z_not_positive.
Qed.

Lemma leb_not_positive (t a : float) :
  (exists m e, Prim2SF t = S754_finite false m e) ->
  Binary64.not_positive (Prim2SF a) = true ->
  (t <=? a)%float = false.
Proof.
  intros (m & e & Ht) H. rewrite FloatAxioms.leb_spec, Ht.
  destruct (Prim2SF a) as [s | s | | s mx ex]; simpl in *; subst; reflexivity.
Qed.

Lemma tier_by_amount_not_positive (a : float) :
  Binary64.not_positive (Prim2SF a) = true ->
  Binary64.tier_by_amount a = "Unknown"%string.
Proof.
  intros H. unfold Binary64.tier_by_amount.
  rewrite !leb_not_positive; try assumption; try reflexivity;
    vm_compute; eauto.
Qed.

Lemma to_Q_not_positive (a : float) (q : Q) :
  Binary64.not_positive (Prim2SF a) = true ->
  Binary64.to_Q a = Some q -> (q <= 0)%Q.
Proof.
  intros H. unfold Binary64.to_Q.
  destruct (Prim2SF a) as [s | s | | s m e]; simpl in *; try discriminate.
  - intros [= <-]. apply Qle_refl.
  - subst. intros [= <-].
    destruct (0 <=? e)%Z.
    + unfold Qle, Qopp, inject_Z; simpl.
      pose proof (Z.pow_nonneg 2 e ltac:(lia)). nia.
    + unfold Qle, Qopp; simpl. lia.
Qed.

Lemma to_Q_None_mul (a : float) :
  Binary64.to_Q a = None ->
  Binary64.to_Q (a * Binary64.fallback_multiplier)%float = None.
Proof.
  unfold Binary64.to_Q. rewrite FloatAxioms.mul_spec.
  destruct multiplier_spec as (m & e & ->).
  destruct (Prim2SF a) as [s | s | | s mx ex]; try discriminate; reflexivity.
Qed.

End Binary64Facts.

Section TierResolverClaims.

Import TierResolver.
Local Open Scope Q_scope.

(** C1.  For a session without tier metadata, [resolveTier] classifies the
    amount, [amount_total] cents over 100, by the descending thresholds, the
    first (highest) matching one winning: at least 5000 dollars (500000
    cents) is "Titan", at least 2000 "Gold", at least 750 "Silver", at least
    250 "Bronze", anything below, and a missing amount, the no-tier-matched
    sentinel; the thresholds are strictly decreasing and the comparison
    chain is the first-match lookup in that table.  [resolveCredits] returns
    325, 1050, 3000 and 8000 for the amounts 250, 750, 2000 and 5000,
    whatever tier it is given, and so for sessions of 25000, 75000, 200000
    and 500000 cents.  On binary64 numbers the tier changes at the same
    cents and the credits of those amounts are the same. *)
Theorem resolveTier_thresholds_resolveCredits_table :
  (forall session : Session,
      no_tier_metadata session ->
      (forall cents : Z,
          amount_total session = Some cents ->
          (500000 <= cents -> resolveTier session = "Titan")%Z /\
          (200000 <= cents < 500000 -> resolveTier session = "Gold")%Z /\
          (75000 <= cents < 200000 -> resolveTier session = "Silver")%Z /\
          (25000 <= cents < 75000 -> resolveTier session = "Bronze")%Z /\
          (cents < 25000 -> resolveTier session = no_tier_matched)%Z /\
          resolveTier session = classify_by_table (inject_Z cents / 100)) /\
      (amount_total session = None -> resolveTier session = no_tier_matched)) /\
  strictly_decreasing (List.map fst tier_table) = true /\
  (forall (tier : string) (a : Q),
      (a == 250 -> resolveCredits tier a = 325%Z) /\
      (a == 750 -> resolveCredits tier a = 1050%Z) /\
      (a == 2000 -> resolveCredits tier a = 3000%Z) /\
      (a == 5000 -> resolveCredits tier a = 8000%Z)) /\
  (forall session : Session,
      (amount_total session = Some 25000%Z ->
       resolveCredits (resolveTier session) (amount_usd session) = 325%Z) /\
      (amount_total session = Some 75000%Z ->
       resolveCredits (resolveTier session) (amount_usd session) = 1050%Z) /\
      (amount_total session = Some 200000%Z ->
       resolveCredits (resolveTier session) (amount_usd session) = 3000%Z) /\
      (amount_total session = Some 500000%Z ->
       resolveCredits (resolveTier session) (amount_usd session) = 8000%Z)) /\
  List.map (fun cents =>
              let s := plain_session "cs" cents in
              (Binary64.resolveTier s, Binary64.credits s))
           [24999; 25000; 74999; 75000; 199999; 200000; 499999; 500000]%Z
  = [ ("Unknown", Some 325); ("Bronze", Some 325);
      ("Bronze", Some 1050); ("Silver", Some 1050);
      ("Silver", Some 3000); ("Gold", Some 3000);
      ("Gold", Some 8000); ("Titan", Some 8000) ]%Z.
Proof.
  split; [| split; [| split; [| split]]].
  - intros session Hno. pose proof (no_tier_metadata_tier session Hno) as Hm.
    split.
    + intros cents Hc. rewrite (tier_of_cents session cents Hm Hc).
      repeat split.
      * intros H. apply Z.leb_le in H. now rewrite H.
      * intros [H1 H2].
        destruct (Z.leb_spec 500000 cents); [lia |].
        destruct (Z.leb_spec 200000 cents); [reflexivity | lia].
      * intros [H1 H2].
        destruct (Z.leb_spec 500000 cents); [lia |].
        destruct (Z.leb_spec 200000 cents); [lia |].
        destruct (Z.leb_spec 75000 cents); [reflexivity | lia].
      * intros [H1 H2].
        destruct (Z.leb_spec 500000 cents); [lia |].
        destruct (Z.leb_spec 200000 cents); [lia |].
        destruct (Z.leb_spec 75000 cents); [lia |].
        destruct (Z.leb_spec 25000 cents); [reflexivity | lia].
      * intros H.
        destruct (Z.leb_spec 500000 cents); [lia |].
        destruct (Z.leb_spec 200000 cents); [lia |].
        destruct (Z.leb_spec 75000 cents); [lia |].
        destruct (Z.leb_spec 25000 cents); [lia | reflexivity].
      * unfold classify_by_table, tier_table. cbn [List.find fst snd].
        assert (Hle : forall t : Z,
                   Qle_bool (inject_Z t) (inject_Z cents / 100)
                   = (t * 100 <=? cents)%Z).
        { intros t. apply Bool.eq_iff_eq_true.
          rewrite Qle_bool_iff, Z.leb_le.
          unfold Qle, Qdiv, Qmult, Qinv, inject_Z; simpl. lia. }
        rewrite !Hle.
        change (5000 * 100)%Z with 500000%Z. change (2000 * 100)%Z with 200000%Z.
        change (750 * 100)%Z with 75000%Z. change (250 * 100)%Z with 25000%Z.
        repeat (match goal with |- context [(?x <=? ?y)%Z] =>
                                  destruct (x <=? y)%Z end; try reflexivity).
    + intros Hc. unfold resolveTier, amount_usd. rewrite Hm, Hc. reflexivity.
  - reflexivity.
  - intros tier a. repeat split; intros H;
      rewrite (resolveCredits_comp tier _ _ H); reflexivity.
  - intros session. unfold amount_usd.
    repeat split; intros ->; reflexivity.
  - vm_compute. reflexivity.
Qed.

(** The four canonical payments end to end: 250.00, 750.00, 2000.00 and
    5000.00 dollars, no tier metadata. *)
Example canonical_payments :
  List.map (fun cents =>
              let s := plain_session "cs_test" cents in
              (resolveTier s, resolveCredits (resolveTier s) (amount_usd s)))
           [25000; 75000; 200000; 500000]%Z
  = [("Bronze", 325); ("Silver", 1050); ("Gold", 3000); ("Titan", 8000)]%Z.
Proof. vm_compute. reflexivity. Qed.

Lemma resolveTier_thresholds_resolveCredits_table_witness :
  resolveTier (plain_session "cs_test_a1" 25000) = "Bronze" /\
  resolveCredits "Bronze" (amount_usd (plain_session "cs_test_a1" 25000)) = 325%Z.
Proof.
  destruct resolveTier_thresholds_resolveCredits_table
    as (Htier & _ & Hcred & _).
  split.
  - destruct (Htier (plain_session "cs_test_a1" 25000)) as (Hcents & _).
    + left. reflexivity.
    + destruct (Hcents 25000%Z eq_refl) as (_ & _ & _ & Hbronze & _).
      apply Hbronze. lia.
  - apply (Hcred "Bronze"). vm_compute. reflexivity.
Defined.

(** C3.  When the amount rounded to the nearest integer is none of 250,
    750, 2000, 5000, [resolveCredits] returns [Math.round(amountTotal * 1.3)],
    the product being the binary64 one and [Math.round] the nearest integer,
    ties upwards.  A payment of 1000.00 gets 1300 credits and the tier
    "Silver"; 100.50 gets 131, 9.99 gets 13, 5.00 gets 7.  A session without
    tier metadata whose amount is missing, zero or negative (a whole number
    of cents above -2^53) resolves to the no-tier-matched sentinel and to
    the fallback credits, which are then zero or negative (0 for 0.00 and
    for -0.01, -6 for -5.00, -13 for -10.00). *)
Theorem resolveCredits_fallback_multiplier :
  (forall (tier : string) (a : float),
      (forall r : Z,
          Binary64.Math_round a = Some r ->
          r <> 250%Z /\ r <> 750%Z /\ r <> 2000%Z /\ r <> 5000%Z) ->
      Binary64.resolveCredits tier a
      = Binary64.Math_round (a * Binary64.fallback_multiplier)%float) /\
  (forall (a : float) (q : Q),
      Binary64.to_Q a = Some q ->
      exists r : Z,
        Binary64.Math_round a = Some r /\
        q - (1 # 2) < inject_Z r /\ inject_Z r <= q + (1 # 2)) /\
  (forall sid : string,
      let s := plain_session sid 100000 in
      Binary64.resolveTier s = "Silver" /\ Binary64.credits s = Some 1300%Z) /\
  List.map (fun cents => Binary64.credits (plain_session "cs" cents))
           [10050; 999; 500; 33; 0; -1; -500; -1000]%Z
  = [Some 131; Some 13; Some 7; Some 0; Some 0; Some 0; Some (-6); Some (-13)]%Z /\
  (forall session : Session,
      no_tier_metadata session ->
      amount_total session = None \/
      (exists cents : Z,
          amount_total session = Some cents /\ (- 2 ^ 53 < cents <= 0)%Z) ->
      let a := Binary64.amount_usd (amount_total session) in
      Binary64.resolveTier session = no_tier_matched /\
      Binary64.credits session
      = Binary64.Math_round (a * Binary64.fallback_multiplier)%float /\
      (forall r : Z, Binary64.credits session = Some r -> (r <= 0)%Z)).
Proof.
  split; [| split; [| split; [| split]]].
  - intros tier a Hr. unfold Binary64.resolveCredits.
    destruct (Binary64.Math_round a) as [r |] eqn:E.
    + destruct (Hr r eq_refl) as (H1 & H2 & H3 & H4).
      apply Z.eqb_neq in H1, H2, H3, H4. now rewrite H1, H2, H3, H4.
    + unfold Binary64.Math_round in *.
      destruct (Binary64.to_Q a) eqn:Hq; [discriminate |].
      now rewrite (to_Q_None_mul a Hq).
  - intros a q Hq. exists (Math_round q). unfold Binary64.Math_round.
    rewrite Hq. split; [reflexivity |].
    split; [apply Math_round_lower | apply Math_round_upper].
  - intros sid. split; vm_compute; reflexivity.
  - vm_compute. reflexivity.
  - intros session Hno Hamount a.
    pose proof (no_tier_metadata_tier session Hno) as Hm.
    assert (Ha : Binary64.not_positive (Prim2SF a) = true).
    { apply amount_not_positive.
      destruct Hamount as [Hn | (cents & Hc & Hle)]; [now left |].
      right. exists cents. split; [exact Hc | lia]. }
    assert (Htier : Binary64.resolveTier session = no_tier_matched).
    { unfold Binary64.resolveTier. rewrite Hm. fold a.
      now apply tier_by_amount_not_positive. }
    assert (Hcredits : Binary64.credits session
                       = Binary64.Math_round (a * Binary64.fallback_multiplier)%float).
    { unfold Binary64.credits. fold a. unfold Binary64.resolveCredits.
      unfold Binary64.Math_round at 1.
      destruct (Binary64.to_Q a) as [q |] eqn:Hq; simpl.
      - pose proof (to_Q_not_positive a q Ha Hq) as Hle.
        apply Math_round_nonpos in Hle.
        repeat (match goal with |- context [(?x =? ?y)%Z] =>
                                  destruct (Z.eqb_spec x y) end; try lia).
        reflexivity.
      - unfold Binary64.Math_round. now rewrite (to_Q_None_mul a Hq). }
    split; [exact Htier |]. split; [exact Hcredits |].
    intros r. rewrite Hcredits. unfold Binary64.Math_round.
    destruct (Binary64.to_Q (a * Binary64.fallback_multiplier)%float)
      as [q |] eqn:Hq; simpl; [| discriminate].
    intros [= <-]. apply Math_round_nonpos.
    apply (to_Q_not_positive _ q (mul_not_positive a Ha) Hq).
Qed.

Lemma resolveCredits_fallback_multiplier_witness :
  Binary64.resolveCredits "Silver" (Binary64.amount_usd (Some 100000%Z))
    = Some 1300%Z /\
  Binary64.resolveTier (plain_session "cs_test_c3" (-1000)) = no_tier_matched /\
  Binary64.credits (plain_session "cs_test_c3" (-1000)) = Some (-13)%Z.
Proof.
  destruct resolveCredits_fallback_multiplier as (Hfb & _ & _ & _ & Hneg).
  split; [| split].
  - rewrite (Hfb "Silver" (Binary64.amount_usd (Some 100000%Z))).
    + vm_compute. reflexivity.
    + intros r Hr. vm_compute in Hr. injection Hr as <-.
      repeat split; discriminate.
  - destruct (Hneg (plain_session "cs_test_c3" (-1000))) as (Ht & _).
    + left. reflexivity.
    + right. exists (-1000)%Z. split; [reflexivity | lia].
    + exact Ht.
  - destruct (Hneg (plain_session "cs_test_c3" (-1000))) as (_ & Hc & _).
    + left. reflexivity.
    + right. exists (-1000)%Z. split; [reflexivity | lia].
    + rewrite Hc. vm_compute. reflexivity.
Defined.

(** Where the exact and the binary64 product part ways: at 10000000000003.46
    dollars the exact product is just below a tie and the binary64 product
    is the tie itself, which rounds up. *)
Example binary64_product_is_rounded :
  Binary64.credits (plain_session "cs" 1000000000000346)
    = Some 13000000000005%Z /\
  resolveCredits "" (amount_usd (plain_session "cs" 1000000000000346))
    = 13000000000004%Z.
Proof. split; vm_compute; reflexivity. Qed.

(** The same below one dollar, for an amount that is not a whole number of
    cents: the binary64 number next to 5/13 times the multiplier is 1/2,
    which rounds to 1, while the exact product is below 1/2. *)
Example binary64_product_reaches_tie :
  Binary64.to_Q 0x1.89d89d89d89d8p-2%float
    = Some (6928614811339224 # 18014398509481984) /\
  (0x1.89d89d89d89d8p-2 * Binary64.fallback_multiplier)%float = 0.5%float /\
  Binary64.resolveCredits "" 0x1.89d89d89d89d8p-2%float = Some 1%Z /\
  resolveCredits "" (6928614811339224 # 18014398509481984) = 0%Z.
Proof. repeat split; vm_compute; reflexivity. Qed.

(** C4.  When the session carries tier metadata (a non-empty
    [session.metadata.tier]), [resolveTier] returns that value whatever the
    amount is, so the amount thresholds play no part.  The credits of the
    record the handler builds are those of the amount alone: the same as
    for the session without its metadata, 325, 1050, 3000 and 8000 at
    250.00, 750.00, 2000.00 and 5000.00 dollars whatever the tier says, and
    the 13 of the fallback at 10.00 dollars. *)
Theorem metadata_tier_overrides_amount :
  forall (session : Session) (m : gmap string string) (t : string),
    metadata session = Some m -> m !! "tier" = Some t -> t <> "" ->
    resolveTier session = t /\
    (forall cents : option Z, resolveTier (with_amount session cents) = t) /\
    Binary64.resolveTier session = t /\
    (forall env : Env,
        Server.tier (Server.founderRecord env session) = t /\
        Server.credits (Server.founderRecord env session)
        = Server.credits (Server.founderRecord env (without_metadata session)) /\
        (amount_total session = Some 25000%Z ->
         Server.credits (Server.founderRecord env session) = 325%Z) /\
        (amount_total session = Some 75000%Z ->
         Server.credits (Server.founderRecord env session) = 1050%Z) /\
        (amount_total session = Some 200000%Z ->
         Server.credits (Server.founderRecord env session) = 3000%Z) /\
        (amount_total session = Some 500000%Z ->
         Server.credits (Server.founderRecord env session) = 8000%Z) /\
        (amount_total session = Some 1000%Z ->
         Server.credits (Server.founderRecord env session) = 13%Z /\
         Binary64.credits session = Some 13%Z)).
Proof.
  intros session m t Hmeta Htier Hne.
  assert (Hm : forall cents, metadata_tier (with_amount session cents) = Some t).
  { intros cents. unfold metadata_tier; simpl. rewrite Hmeta, Htier.
    unfold truthy_str. now destruct (decide (t = "")). }
  assert (Hm0 : metadata_tier session = Some t).
  { unfold metadata_tier. rewrite Hmeta, Htier.
    unfold truthy_str. now destruct (decide (t = "")). }
  split; [unfold resolveTier; now rewrite Hm0 |].
  split; [intros cents; unfold resolveTier; now rewrite Hm |].
  split; [unfold Binary64.resolveTier; now rewrite Hm0 |].
  intros env. unfold Server.founderRecord; simpl.
  split; [unfold resolveTier; now rewrite Hm0 |].
  split; [reflexivity |].
  unfold Binary64.credits, amount_usd.
  repeat (split; [intros ->; reflexivity |]).
  intros ->. split; reflexivity.
Qed.

Lemma metadata_tier_overrides_amount_witness :
  resolveTier gold_override_session = "Gold" /\
  Server.credits
    (Server.founderRecord Sample.checkout_env gold_override_session) = 13%Z.
Proof.
  destruct (metadata_tier_overrides_amount gold_override_session
              {[ "tier" := "Gold" ]} "Gold") as (Htier & _ & _ & Hrecord).
  - reflexivity.
  - vm_compute. reflexivity.
  - discriminate.
  - split; [exact Htier |].
    destruct (Hrecord Sample.checkout_env) as (_ & _ & _ & _ & _ & _ & H10).
    apply H10. reflexivity.
Defined.

(** Binary64 arithmetic gives the same tier and the same credits as the
    exact arithmetic on every amount in cents from -5.00 to 30.00 dollars,
    within one dollar of each threshold, and on 1000.00 dollars. *)
Example binary64_agrees :
  forallb Binary64.agrees
    (Binary64.upto (-500) (Z.to_nat 3500) ++ Binary64.upto 24900 201
     ++ Binary64.upto 74900 201 ++ Binary64.upto 199900 201
     ++ Binary64.upto 499900 201 ++ [100000%Z])
  = true.
Proof. vm_compute. reflexivity. Qed.

End TierResolverClaims.

(** * Running the handlers *)

Ltac run_monad :=
  unfold mbind, M_bind, mret, M_ret, attempt, try_catch, throw,
         constructEvent, listLineItems, values_append, of_sum.

Lemma append_requests_app (t1 t2 : list Call) :
  append_requests (t1 ++ t2) = append_requests t1 ++ append_requests t2.
Proof. unfold append_requests. apply omap_app. Qed.

Lemma or_str_Some (s : string) : or_str (Some s) "" = s.
Proof.
  unfold or_str, truthy_str. destruct (decide (s = "")) as [-> |]; reflexivity.
Qed.

Section ServerRuns.

Variable penv : ProcessEnv.
Variable env : Env.

Lemma appendToSheet_run (founder : Server.FounderRecord) (w : World) :
  Server.appendToSheet penv env founder w =
    match sheets_append env (server_request penv founder) with
    | Some e =>
        (Thrown e, record_call (SheetsAppend (server_request penv founder)) w)
    | None =>
        (Returned tt,
         {| ledger := ledger w ++ [Server.sheet_row founder];
            trace := trace w ++ [SheetsAppend (server_request penv founder)] |})
    end.
Proof.
  unfold Server.appendToSheet. run_monad.
  destruct (sheets_append env _); reflexivity.
Qed.

Lemma handleCheckoutCompleted_run (session : Session) (w : World) :
  Server.handleCheckoutCompleted penv env session w =
    Server.appendToSheet penv env (Server.founderRecord env session) w.
Proof.
  unfold Server.handleCheckoutCompleted. run_monad.
  rewrite appendToSheet_run.
  destruct (sheets_append env _); reflexivity.
Qed.

Lemma webhook_unconfigured (req : Request) (w : World) :
  truthy (STRIPE_WEBHOOK_SECRET penv) = false ->
  Server.stripe_webhook penv env req w =
    (Returned {| status := 500; payload := Send "Webhook secret not configured" |},
     w).
Proof. intros H. unfold Server.stripe_webhook. now rewrite H. Qed.

Lemma webhook_rejected (req : Request) (err : Error) (w : World) :
  truthy (STRIPE_WEBHOOK_SECRET penv) = true ->
  stripe_constructEvent env (body req) (stripe_signature req)
    (STRIPE_WEBHOOK_SECRET penv) = inr err ->
  Server.stripe_webhook penv env req w =
    (Returned {| status := 400;
                 payload := Send ("Webhook Error: " +:+ message err) |},
     record_call (ConstructEvent (body req) (stripe_signature req)
                    (STRIPE_WEBHOOK_SECRET penv)) w).
Proof.
  intros Hs Hv. unfold Server.stripe_webhook. rewrite Hs. run_monad.
  now rewrite Hv.
Qed.

Lemma webhook_ignored (req : Request) (event : Event) (w : World) :
  truthy (STRIPE_WEBHOOK_SECRET penv) = true ->
  stripe_constructEvent env (body req) (stripe_signature req)
    (STRIPE_WEBHOOK_SECRET penv) = inl event ->
  type event <> checkout_session_completed ->
  Server.stripe_webhook penv env req w =
    (Returned {| status := 200;
                 payload := SendJson (JObject "received" (JBool true)) |},
     record_call (ConstructEvent (body req) (stripe_signature req)
                    (STRIPE_WEBHOOK_SECRET penv)) w).
Proof.
  intros Hs Hv Hty. unfold Server.stripe_webhook. rewrite Hs. run_monad.
  rewrite Hv. apply String.eqb_neq in Hty. now rewrite Hty.
Qed.

Lemma webhook_checkout (req : Request) (event : Event) (w : World) :
  truthy (STRIPE_WEBHOOK_SECRET penv) = true ->
  stripe_constructEvent env (body req) (stripe_signature req)
    (STRIPE_WEBHOOK_SECRET penv) = inl event ->
  type event = checkout_session_completed ->
  let w1 := record_call (ConstructEvent (body req) (stripe_signature req)
                           (STRIPE_WEBHOOK_SECRET penv)) w in
  let founder := Server.founderRecord env (object (data event)) in
  Server.stripe_webhook penv env req w =
    match sheets_append env (server_request penv founder) with
    | Some e =>
        (Returned {| status := 500; payload := Send "Internal Server Error" |},
         record_call (SheetsAppend (server_request penv founder)) w1)
    | None =>
        (Returned {| status := 200;
                     payload := SendJson (JObject "received" (JBool true)) |},
         {| ledger := ledger w ++ [Server.sheet_row founder];
            trace := trace w1 ++ [SheetsAppend (server_request penv founder)] |})
    end.
Proof.
  intros Hs Hv Hty w1 founder. unfold Server.stripe_webhook. rewrite Hs.
  run_monad. rewrite Hv. apply String.eqb_eq in Hty. rewrite Hty.
  cbn [negb]. cbv beta iota.
  rewrite handleCheckoutCompleted_run, appendToSheet_run.
  fold founder. destruct (sheets_append env _); reflexivity.
Qed.

End ServerRuns.

Lemma TIER_CONFIG_get_own (priceId : string)
    (config : LineItemVariant.TierConfig) :
  LineItemVariant.TIER_CONFIG !! priceId = Some config ->
  LineItemVariant.TIER_CONFIG_get priceId = LineItemVariant.OwnEntry config.
Proof. intros H. unfold LineItemVariant.TIER_CONFIG_get. now rewrite H. Qed.

Lemma TIER_CONFIG_get_undefined (priceId : string) :
  LineItemVariant.TIER_CONFIG !! priceId = None ->
  priceId ∉ LineItemVariant.Object_prototype ->
  LineItemVariant.TIER_CONFIG_get priceId = LineItemVariant.NoProperty.
Proof.
  intros H Hn. unfold LineItemVariant.TIER_CONFIG_get. rewrite H.
  now rewrite bool_decide_eq_false_2.
Qed.

Section LineItemRuns.

Variable penv : ProcessEnv.
Variable env : Env.

Lemma line_items_fetch_failed (session : Session) (e : Error) (w : World) :
  stripe_listLineItems env (id session) 10 = inr e ->
  LineItemVariant.handleCheckoutCompleted penv env session w =
    (Thrown e, record_call (ListLineItems (id session) 10) w).
Proof.
  intros H. unfold LineItemVariant.handleCheckoutCompleted. run_monad.
  now rewrite H.
Qed.

Lemma line_items_empty (session : Session) (items : LineItemList) (w : World) :
  stripe_listLineItems env (id session) 10 = inl items ->
  li_data items = None \/ li_data items = Some [] ->
  LineItemVariant.handleCheckoutCompleted penv env session w =
    (Thrown (mkError "No line items found on session"),
     record_call (ListLineItems (id session) 10) w).
Proof.
  intros H Hd. unfold LineItemVariant.handleCheckoutCompleted. run_monad.
  rewrite H. cbv beta iota. destruct Hd as [-> | ->]; reflexivity.
Qed.

Lemma line_items_unknown_price (session : Session) (items : LineItemList)
    (first : LineItem) (rest : list LineItem) (p : Price) (w : World) :
  stripe_listLineItems env (id session) 10 = inl items ->
  li_data items = Some (first :: rest) ->
  price first = Some p ->
  LineItemVariant.TIER_CONFIG !! price_id p = None ->
  price_id p ∉ LineItemVariant.Object_prototype ->
  LineItemVariant.handleCheckoutCompleted penv env session w =
    (Thrown (mkError ("Unknown price ID: " +:+ price_id p)),
     record_call (ListLineItems (id session) 10) w).
Proof.
  intros H Hd Hp Hc Hn. unfold LineItemVariant.handleCheckoutCompleted. run_monad.
  rewrite H. cbv beta iota. rewrite Hd, Hp. cbv beta iota zeta.
  now rewrite (TIER_CONFIG_get_undefined _ Hc Hn).
Qed.

Lemma line_items_priced (session : Session) (items : LineItemList)
    (first : LineItem) (rest : list LineItem) (p : Price)
    (config : LineItemVariant.TierConfig) (w : World) :
  stripe_listLineItems env (id session) 10 = inl items ->
  li_data items = Some (first :: rest) ->
  price first = Some p ->
  LineItemVariant.TIER_CONFIG !! price_id p = Some config ->
  let w1 := record_call (ListLineItems (id session) 10) w in
  let req := LineItemVariant.append_request penv
               [line_item_row env session config] in
  LineItemVariant.handleCheckoutCompleted penv env session w =
    match sheets_append env req with
    | Some e => (Thrown e, record_call (SheetsAppend req) w1)
    | None =>
        (Returned tt,
         {| ledger := ledger w ++ [line_item_row env session config];
            trace := trace w1 ++ [SheetsAppend req] |})
    end.
Proof.
  intros H Hd Hp Hc w1 req.
  unfold LineItemVariant.handleCheckoutCompleted. run_monad.
  rewrite H. cbv beta iota. rewrite Hd, Hp. cbv beta iota zeta.
  rewrite (TIER_CONFIG_get_own _ _ Hc). cbn [LineItemVariant.truthy_config negb].
  unfold LineItemVariant.appendToSheet. run_monad.
  change (LineItemVariant.sheet_values _ _ _ _ _ _ _)
    with (line_item_row env session config).
  fold req.
  destruct (sheets_append env req); reflexivity.
Qed.

Lemma line_item_webhook_rejected (req : Request) (err : Error) (w : World) :
  stripe_constructEvent env (body req) (stripe_signature req)
    (STRIPE_WEBHOOK_SECRET penv) = inr err ->
  LineItemVariant.stripe_webhook penv env req w =
    (Returned {| status := 400;
                 payload := Send ("Webhook Error: " +:+ message err) |},
     record_call (ConstructEvent (body req) (stripe_signature req)
                    (STRIPE_WEBHOOK_SECRET penv)) w).
Proof.
  intros Hv. unfold LineItemVariant.stripe_webhook,
    LineItemVariant.endpointSecret. run_monad. now rewrite Hv.
Qed.

Lemma line_item_webhook_ignored (req : Request) (event : Event) (w : World) :
  stripe_constructEvent env (body req) (stripe_signature req)
    (STRIPE_WEBHOOK_SECRET penv) = inl event ->
  type event <> checkout_session_completed ->
  LineItemVariant.stripe_webhook penv env req w =
    (Returned {| status := 200; payload := Send "Event ignored" |},
     record_call (ConstructEvent (body req) (stripe_signature req)
                    (STRIPE_WEBHOOK_SECRET penv)) w).
Proof.
  intros Hv Hty. unfold LineItemVariant.stripe_webhook,
    LineItemVariant.endpointSecret. run_monad.
  rewrite Hv. apply String.eqb_neq in Hty. now rewrite Hty.
Qed.

(** A checkout-completed event: the answer follows the outcome of
    [handleCheckoutCompleted]. *)
Lemma line_item_webhook_checkout (req : Request) (event : Event) (w : World) :
  stripe_constructEvent env (body req) (stripe_signature req)
    (STRIPE_WEBHOOK_SECRET penv) = inl event ->
  type event = checkout_session_completed ->
  let w1 := record_call (ConstructEvent (body req) (stripe_signature req)
                           (STRIPE_WEBHOOK_SECRET penv)) w in
  LineItemVariant.stripe_webhook penv env req w =
    match LineItemVariant.handleCheckoutCompleted penv env
            (object (data event)) w1 with
    | (Returned _, w') =>
        (Returned {| status := 200; payload := Send "Received and processed" |},
         w')
    | (Thrown _, w') =>
        (Returned {| status := 500; payload := Send "Server error" |}, w')
    end.
Proof.
  intros Hv Hty w1. unfold LineItemVariant.stripe_webhook,
    LineItemVariant.endpointSecret. run_monad.
  rewrite Hv. apply String.eqb_eq in Hty. rewrite Hty. cbv beta iota zeta.
  fold w1.
  destruct (LineItemVariant.handleCheckoutCompleted penv env
              (object (data event)) w1) as [[u | e] w']; reflexivity.
Qed.

End LineItemRuns.

(** * The webhook route *)

Lemma append_requests_record_verification (w : World) raw sig secret :
  append_requests (trace (record_call (ConstructEvent raw sig secret) w))
  = append_requests (trace w).
Proof.
  unfold record_call; simpl. rewrite append_requests_app; simpl.
  apply app_nil_r.
Qed.

Lemma append_requests_record_listing (w : World) sid limit :
  append_requests (trace (record_call (ListLineItems sid limit) w))
  = append_requests (trace w).
Proof.
  unfold record_call; simpl. rewrite append_requests_app; simpl.
  apply app_nil_r.
Qed.

Section RouteClaims.

Variable penv : ProcessEnv.
Variable env : Env.

(** C2 (amended).  A request whose signature the verification rejects
    (invalid, or no header at all) never reaches the ledger: no append call
    is made and no row is written.  The line-item program answers 400
    "Webhook Error: <message>" with the message of the verification error;
    [server.js] answers the same when the signing secret is configured, and
    500 "Webhook secret not configured", without verifying, when it is not. *)
Theorem rejected_signature_no_ledger_call :
  forall (req : Request) (err : Error) (w : World),
    stripe_constructEvent env (body req) (stripe_signature req)
      (STRIPE_WEBHOOK_SECRET penv) = inr err ->
    let bad_request :=
      {| status := 400; payload := Send ("Webhook Error: " +:+ message err) |} in
    let verified_world :=
      record_call (ConstructEvent (body req) (stripe_signature req)
                     (STRIPE_WEBHOOK_SECRET penv)) w in
    LineItemVariant.stripe_webhook penv env req w
      = (Returned bad_request, verified_world) /\
    (truthy (STRIPE_WEBHOOK_SECRET penv) = true ->
     Server.stripe_webhook penv env req w = (Returned bad_request, verified_world)) /\
    (truthy (STRIPE_WEBHOOK_SECRET penv) = false ->
     Server.stripe_webhook penv env req w
       = (Returned {| status := 500;
                      payload := Send "Webhook secret not configured" |}, w)) /\
    (forall w', w' = snd (Server.stripe_webhook penv env req w) \/
                w' = snd (LineItemVariant.stripe_webhook penv env req w) ->
                append_requests (trace w') = append_requests (trace w) /\
                ledger w' = ledger w).
Proof.
  intros req err w Hv bad_request verified_world.
  pose proof (line_item_webhook_rejected penv env req err w Hv) as Hl.
  split; [exact Hl |].
  split; [intros Hs; now apply webhook_rejected |].
  split; [intros Hs; now apply webhook_unconfigured |].
  intros w' [-> | ->].
  - destruct (truthy (STRIPE_WEBHOOK_SECRET penv)) eqn:Hs.
    + rewrite (webhook_rejected penv env req err w Hs Hv); simpl.
      split; [apply append_requests_record_verification | reflexivity].
    + rewrite (webhook_unconfigured penv env req w Hs); simpl. now split.
  - rewrite Hl; simpl.
    split; [apply append_requests_record_verification | reflexivity].
Qed.

(** C5 (amended).  A validly signed event whose type is not
    checkout-completed is acknowledged with 200 and no ledger write: no
    append call, no new row.  The body is the JSON [{"received": true}] in
    [server.js] (the signature being checked against the configured secret)
    and the text "Event ignored" in the line-item program. *)
Theorem ignored_event_acknowledged :
  forall (req : Request) (event : Event) (w : World),
    stripe_constructEvent env (body req) (stripe_signature req)
      (STRIPE_WEBHOOK_SECRET penv) = inl event ->
    type event <> checkout_session_completed ->
    let verified_world :=
      record_call (ConstructEvent (body req) (stripe_signature req)
                     (STRIPE_WEBHOOK_SECRET penv)) w in
    (truthy (STRIPE_WEBHOOK_SECRET penv) = true ->
     Server.stripe_webhook penv env req w
       = (Returned {| status := 200;
                      payload := SendJson (JObject "received" (JBool true)) |},
          verified_world)) /\
    LineItemVariant.stripe_webhook penv env req w
      = (Returned {| status := 200; payload := Send "Event ignored" |},
         verified_world) /\
    append_requests (trace verified_world) = append_requests (trace w) /\
    ledger verified_world = ledger w.
Proof.
  intros req event w Hv Hty verified_world.
  split; [intros Hs; now apply (webhook_ignored penv env req event w) |].
  split; [now apply (line_item_webhook_ignored penv env req event w) |].
  split; [apply append_requests_record_verification | reflexivity].
Qed.

(** C6 (amended).  In the line-item program, a checkout-completed event
    whose fetched line-item list is empty (or missing), or whose first line
    item has a price identifier that is neither a key of the tier table nor
    the name of a property inherited from [Object.prototype], makes
    [handleCheckoutCompleted] throw ("No line items found on session",
    "Unknown price ID: <id>"); the route answers 500 and the ledger writer
    is never called: no append call, no new row.  [server.js] does not fetch
    line items: the listing plays no part in what it does, and it calls the
    ledger writer for the same event. *)
Theorem malformed_checkout_fails_without_write :
  forall (req : Request) (event : Event) (items : LineItemList) (w : World),
    stripe_constructEvent env (body req) (stripe_signature req)
      (STRIPE_WEBHOOK_SECRET penv) = inl event ->
    type event = checkout_session_completed ->
    stripe_listLineItems env (id (object (data event))) 10 = inl items ->
    (li_data items = None \/ li_data items = Some [] \/
     exists first rest p,
       li_data items = Some (first :: rest) /\ price first = Some p /\
       LineItemVariant.TIER_CONFIG !! price_id p = None /\
       price_id p ∉ LineItemVariant.Object_prototype) ->
    let verified_world :=
      record_call (ConstructEvent (body req) (stripe_signature req)
                     (STRIPE_WEBHOOK_SECRET penv)) w in
    let listed_world :=
      record_call (ListLineItems (id (object (data event))) 10) verified_world in
    (exists e : Error,
        MalformedEvent e /\
        LineItemVariant.handleCheckoutCompleted penv env (object (data event))
          verified_world = (Thrown e, listed_world)) /\
    LineItemVariant.stripe_webhook penv env req w
      = (Returned {| status := 500; payload := Send "Server error" |},
         listed_world) /\
    append_requests (trace listed_world) = append_requests (trace w) /\
    ledger listed_world = ledger w /\
    (forall other : LineItemList,
        Server.stripe_webhook penv (with_line_items env other) req w
        = Server.stripe_webhook penv env req w) /\
    (truthy (STRIPE_WEBHOOK_SECRET penv) = true ->
     append_requests (trace (snd (Server.stripe_webhook penv env req w)))
     = append_requests (trace w)
       ++ [server_request penv
             (Server.founderRecord env (object (data event)))]).
Proof.
  intros req event items w Hv Hty Hitems Hbad verified_world listed_world.
  assert (Hthrow : exists e : Error,
             MalformedEvent e /\
             LineItemVariant.handleCheckoutCompleted penv env
               (object (data event)) verified_world = (Thrown e, listed_world)).
  { destruct Hbad as [Hn | [Hn | (first & rest & p & Hd & Hp & Hc & Hi)]].
    - exists (mkError "No line items found on session").
      split; [left; reflexivity |].
      apply (line_items_empty penv env _ items); auto.
    - exists (mkError "No line items found on session").
      split; [left; reflexivity |].
      apply (line_items_empty penv env _ items); auto.
    - exists (mkError ("Unknown price ID: " +:+ price_id p)).
      split; [right; exists (price_id p); reflexivity |].
      now apply (line_items_unknown_price penv env _ items first rest p). }
  split; [exact Hthrow |].
  split.
  { rewrite (line_item_webhook_checkout penv env req event w Hv Hty).
    fold verified_world. destruct Hthrow as (e & _ & ->). reflexivity. }
  split.
  { unfold listed_world. rewrite append_requests_record_listing.
    apply append_requests_record_verification. }
  split; [reflexivity |].
  split; [reflexivity |].
  intros Hs.
  rewrite (webhook_checkout penv env req event w Hs Hv Hty). cbv zeta.
  destruct (sheets_append env _); simpl;
    rewrite !append_requests_app; simpl; now rewrite app_nil_r.
Qed.

End RouteClaims.

(** A rejected request against a configured [server.js]: no signature
    header. *)
Lemma rejected_signature_no_ledger_call_witness :
  Server.stripe_webhook (Sample.penv (Some Sample.whsec))
    (Sample.env (Sample.event_of "charge.succeeded" (plain_session "cs_test_c2" 25000))
                Sample.no_items)
    Sample.unsigned Sample.world0
  = (Returned {| status := 400;
                 payload := Send "Webhook Error: No stripe-signature header value was provided." |},
     {| ledger := [];
        trace := [ConstructEvent [] None (Some Sample.whsec)] |}).
Proof.
  destruct (rejected_signature_no_ledger_call
              (Sample.penv (Some Sample.whsec))
              (Sample.env (Sample.event_of "charge.succeeded"
                             (plain_session "cs_test_c2" 25000))
                          Sample.no_items)
              Sample.unsigned
              (mkError "No stripe-signature header value was provided.")
              Sample.world0 eq_refl) as (_ & Hconfigured & _).
  rewrite Hconfigured; [reflexivity | vm_compute; reflexivity].
Defined.

(** C2 as stated fails on [server.js]: with no signing secret configured, a
    request without signature header is answered 500, not 400. *)
Lemma unconfigured_secret_answers_500 :
  stripe_constructEvent
    (Sample.env (Sample.event_of "charge.succeeded" (plain_session "cs_test_c2" 25000))
                Sample.no_items)
    (body Sample.unsigned) (stripe_signature Sample.unsigned)
    (STRIPE_WEBHOOK_SECRET (Sample.penv None))
  = inr (mkError "No stripe-signature header value was provided.") /\
  fst (Server.stripe_webhook (Sample.penv None)
         (Sample.env (Sample.event_of "charge.succeeded" (plain_session "cs_test_c2" 25000))
                     Sample.no_items)
         Sample.unsigned Sample.world0)
  = Returned {| status := 500; payload := Send "Webhook secret not configured" |} /\
  fst (Server.stripe_webhook (Sample.penv None)
         (Sample.env (Sample.event_of "charge.succeeded" (plain_session "cs_test_c2" 25000))
                     Sample.no_items)
         Sample.unsigned Sample.world0)
  <> Returned {| status := 400;
                 payload := Send "Webhook Error: No stripe-signature header value was provided." |}.
Proof.
  split; [reflexivity |]. split; [vm_compute; reflexivity |].
  vm_compute. discriminate.
Qed.

(** A validly signed event of another type, against both programs. *)
Lemma ignored_event_acknowledged_witness :
  fst (Server.stripe_webhook (Sample.penv (Some Sample.whsec))
         (Sample.env (Sample.event_of "customer.created" (plain_session "cs_test_c5" 25000))
                     Sample.no_items)
         Sample.signed Sample.world0)
  = Returned {| status := 200;
                payload := SendJson (JObject "received" (JBool true)) |} /\
  ledger (snd (LineItemVariant.stripe_webhook (Sample.penv (Some Sample.whsec))
         (Sample.env (Sample.event_of "customer.created" (plain_session "cs_test_c5" 25000))
                     Sample.no_items)
         Sample.signed Sample.world0)) = [].
Proof.
  destruct (ignored_event_acknowledged
              (Sample.penv (Some Sample.whsec))
              (Sample.env (Sample.event_of "customer.created"
                             (plain_session "cs_test_c5" 25000))
                          Sample.no_items)
              Sample.signed
              (Sample.event_of "customer.created" (plain_session "cs_test_c5" 25000))
              Sample.world0)
    as (Hserver & Hline & _ & _).
  - vm_compute. reflexivity.
  - vm_compute. discriminate.
  - split.
    + rewrite Hserver; [reflexivity | vm_compute; reflexivity].
    + rewrite Hline. reflexivity.
Defined.

(** C5 as stated fails on the line-item program: the ignored event is
    acknowledged with the text "Event ignored", not with JSON. *)
Lemma line_item_program_acknowledges_with_text :
  stripe_constructEvent
    (Sample.env (Sample.event_of "customer.created" (plain_session "cs_test_c5" 25000))
                Sample.no_items)
    (body Sample.signed) (stripe_signature Sample.signed)
    (STRIPE_WEBHOOK_SECRET (Sample.penv (Some Sample.whsec)))
  = inl (Sample.event_of "customer.created" (plain_session "cs_test_c5" 25000)) /\
  fst (LineItemVariant.stripe_webhook (Sample.penv (Some Sample.whsec))
         (Sample.env (Sample.event_of "customer.created" (plain_session "cs_test_c5" 25000))
                     Sample.no_items)
         Sample.signed Sample.world0)
  = Returned {| status := 200; payload := Send "Event ignored" |} /\
  fst (LineItemVariant.stripe_webhook (Sample.penv (Some Sample.whsec))
         (Sample.env (Sample.event_of "customer.created" (plain_session "cs_test_c5" 25000))
                     Sample.no_items)
         Sample.signed Sample.world0)
  <> Returned {| status := 200;
                 payload := SendJson (JObject "received" (JBool true)) |}.
Proof.
  split; [vm_compute; reflexivity |]. split; [vm_compute; reflexivity |].
  vm_compute. discriminate.
Qed.

(** A checkout-completed event whose session has no line items. *)
Lemma malformed_checkout_fails_without_write_witness :
  LineItemVariant.stripe_webhook (Sample.penv (Some Sample.whsec))
    (Sample.env (Sample.event_of checkout_session_completed
                   (plain_session "cs_test_c6" 25000))
                Sample.no_items)
    Sample.signed Sample.world0
  = (Returned {| status := 500; payload := Send "Server error" |},
     {| ledger := [];
        trace := [ConstructEvent [] (Some Sample.good_signature) (Some Sample.whsec);
                  ListLineItems "cs_test_c6" 10] |}).
Proof.
  destruct (malformed_checkout_fails_without_write
              (Sample.penv (Some Sample.whsec))
              (Sample.env (Sample.event_of checkout_session_completed
                             (plain_session "cs_test_c6" 25000))
                          Sample.no_items)
              Sample.signed
              (Sample.event_of checkout_session_completed
                 (plain_session "cs_test_c6" 25000))
              Sample.no_items
              Sample.world0)
    as (_ & Hroute & _ & _).
  - vm_compute. reflexivity.
  - reflexivity.
  - reflexivity.
  - right; left. reflexivity.
  - rewrite Hroute. reflexivity.
Defined.

(** C6 as stated fails on [server.js]: for a checkout-completed event whose
    session has no line items the answer is 200 and the ledger writer is
    called, one row is appended. *)
Lemma server_records_checkout_without_line_items :
  stripe_listLineItems
    (Sample.env (Sample.event_of checkout_session_completed
                   (plain_session "cs_test_c6" 25000))
                Sample.no_items)
    "cs_test_c6" 10
  = inl {| li_data := Some [] |} /\
  Server.stripe_webhook (Sample.penv (Some Sample.whsec))
    (Sample.env (Sample.event_of checkout_session_completed
                   (plain_session "cs_test_c6" 25000))
                Sample.no_items)
    Sample.signed Sample.world0
  = (Returned {| status := 200;
                 payload := SendJson (JObject "received" (JBool true)) |},
     {| ledger :=
          [ [ Str "2025-11-02T19:00:00.000Z"; Str "11/2/2025, 1:00:00 PM";
              Str ""; Str "Bronze"; Num (25000 # 100); Num (325 # 1);
              Str "cs_test_c6"; Str ""; Str ""; Str ""; Str "v1.0" ] ];
        trace :=
          [ ConstructEvent [] (Some Sample.good_signature) (Some Sample.whsec);
            SheetsAppend
              {| spreadsheetId := Some "sheet-founders";
                 range := "Sheet1!A:K";
                 valueInputOption := "USER_ENTERED";
                 values :=
                   [ [ Str "2025-11-02T19:00:00.000Z";
                       Str "11/2/2025, 1:00:00 PM";
                       Str ""; Str "Bronze"; Num (25000 # 100); Num (325 # 1);
                       Str "cs_test_c6"; Str ""; Str ""; Str "";
                       Str "v1.0" ] ] |} ] |}).
Proof. split; vm_compute; reflexivity. Qed.

(** An unknown price identifier on the first line item. *)
Example unknown_price_is_malformed :
  LineItemVariant.stripe_webhook (Sample.penv (Some Sample.whsec))
    (Sample.env (Sample.event_of checkout_session_completed
                   (plain_session "cs_test_c6" 25000))
                {| li_data := Some [Sample.item "price_unknown"] |})
    Sample.signed Sample.world0
  = (Returned {| status := 500; payload := Send "Server error" |},
     {| ledger := [];
        trace := [ConstructEvent [] (Some Sample.good_signature) (Some Sample.whsec);
                  ListLineItems "cs_test_c6" 10] |}).
Proof. vm_compute. reflexivity. Qed.

(** A first price identifier that names a property every object inherits is
    not in the tier table, and yet [TIER_CONFIG[priceId]] is truthy: the
    event is answered 200 and a row is appended whose tier and credits are
    [undefined]. *)
Example inherited_property_is_recorded :
  LineItemVariant.TIER_CONFIG !! "constructor" = None /\
  LineItemVariant.stripe_webhook (Sample.penv (Some Sample.whsec))
    (Sample.env (Sample.event_of checkout_session_completed
                   (plain_session "cs_test_c6" 25000))
                {| li_data := Some [Sample.item "constructor"] |})
    Sample.signed Sample.world0
  = (Returned {| status := 200; payload := Send "Received and processed" |},
     {| ledger :=
          [ [ Str "2025-11-02T19:00:00.000Z"; Str "unknown"; Undef;
              Num (25000 # 100); Undef; Str "cs_test_c6"; Str ""; Str "" ] ];
        trace :=
          [ ConstructEvent [] (Some Sample.good_signature) (Some Sample.whsec);
            ListLineItems "cs_test_c6" 10;
            SheetsAppend
              {| spreadsheetId := Some "sheet-founders";
                 range := "Sheet1!A:H";
                 valueInputOption := "USER_ENTERED";
                 values :=
                   [ [ Str "2025-11-02T19:00:00.000Z"; Str "unknown"; Undef;
                       Num (25000 # 100); Undef; Str "cs_test_c6"; Str "";
                       Str "" ] ] |} ] |}).
Proof. split; vm_compute; reflexivity. Qed.

(** * Ledger appends *)

Section Deliveries.

Variable penv : ProcessEnv.

(** [server.js]: what [handleCheckoutCompleted] does to any world. *)
Lemma server_handle_run (env : Env) (session : Session) (w : World) :
  let founder := Server.founderRecord env session in
  let req := server_request penv founder in
  Server.handleCheckoutCompleted penv env session w =
    match sheets_append env req with
    | Some e =>
        (Thrown e, {| ledger := ledger w; trace := trace w ++ [SheetsAppend req] |})
    | None =>
        (Returned tt,
         {| ledger := ledger w ++ [Server.sheet_row founder];
            trace := trace w ++ [SheetsAppend req] |})
    end.
Proof.
  intros founder req.
  rewrite handleCheckoutCompleted_run, appendToSheet_run. reflexivity.
Qed.

(** The line-item program: the outcome, the calls and the rows added do not
    depend on the rows already in the ledger. *)
Lemma line_item_handle_oblivious (env : Env) (session : Session)
    (rows1 rows2 : list Row) (t : list Call) :
  exists (o : Outcome unit) (calls : list Call) (added : list Row),
    LineItemVariant.handleCheckoutCompleted penv env session
      {| ledger := rows1; trace := t |}
      = (o, {| ledger := rows1 ++ added; trace := t ++ calls |}) /\
    LineItemVariant.handleCheckoutCompleted penv env session
      {| ledger := rows2; trace := t |}
      = (o, {| ledger := rows2 ++ added; trace := t ++ calls |}).
Proof.
  unfold LineItemVariant.handleCheckoutCompleted, LineItemVariant.appendToSheet.
  run_monad. unfold record_call; simpl.
  destruct (stripe_listLineItems env (id session) 10) as [items | e]; simpl.
  2:{ exists (Thrown e), [ListLineItems (id session) 10], [].
      now rewrite !app_nil_r. }
  destruct (li_data items) as [[| first rest] |]; simpl.
  1,3: eexists _, [ListLineItems (id session) 10], [];
       now rewrite !app_nil_r.
  destruct (price first) as [p |]; simpl.
  2:{ eexists _, [ListLineItems (id session) 10], [].
      now rewrite !app_nil_r. }
  destruct (LineItemVariant.TIER_CONFIG_get (price_id p)) as [config | |];
    simpl.
  3:{ eexists _, [ListLineItems (id session) 10], [].
      now rewrite !app_nil_r. }
  all: destruct (sheets_append env _) as [e |] eqn:E; simpl.
  1,3: eexists _, [ListLineItems (id session) 10; SheetsAppend _], [];
       rewrite !app_nil_r, <- !app_assoc; simpl; split; reflexivity.
  all: eexists _, [ListLineItems (id session) 10; SheetsAppend _], [_];
       rewrite <- !app_assoc; simpl; split; reflexivity.
Qed.

(** [server.js]: two deliveries of one checkout-completed event, both
    accepted by the sheet, leave two rows. *)
Lemma server_redelivery (env1 env2 : Env) (req : Request) (event : Event)
    (w : World) :
  truthy (STRIPE_WEBHOOK_SECRET penv) = true ->
  stripe_constructEvent env1 (body req) (stripe_signature req)
    (STRIPE_WEBHOOK_SECRET penv) = inl event ->
  stripe_constructEvent env2 (body req) (stripe_signature req)
    (STRIPE_WEBHOOK_SECRET penv) = inl event ->
  type event = checkout_session_completed ->
  let session := object (data event) in
  let founder1 := Server.founderRecord env1 session in
  let founder2 := Server.founderRecord env2 session in
  sheets_append env1 (server_request penv founder1) = None ->
  sheets_append env2 (server_request penv founder2) = None ->
  let w1 := snd (Server.stripe_webhook penv env1 req w) in
  let w2 := snd (Server.stripe_webhook penv env2 req w1) in
  ledger w2 = ledger w ++ [Server.sheet_row founder1; Server.sheet_row founder2] /\
  Server.sheet_row founder1 !! column_index SessionID = Some (Str (id session)) /\
  Server.sheet_row founder2 !! column_index SessionID = Some (Str (id session)).
Proof.
  intros Hs Hv1 Hv2 Hty session founder1 founder2 Ha1 Ha2 w1 w2.
  split; [| split; unfold Server.sheet_row; rewrite !or_str_Some; reflexivity].
  unfold w2, w1.
  rewrite (webhook_checkout penv env1 req event w Hs Hv1 Hty).
  cbv zeta. fold session. fold founder1. rewrite Ha1. simpl snd.
  rewrite (webhook_checkout penv env2 req event _ Hs Hv2 Hty).
  cbv zeta. fold session. fold founder2. rewrite Ha2. simpl.
  now rewrite <- app_assoc.
Qed.

(** The line-item program: the same for an event whose first line item has
    a known price. *)
Lemma line_item_redelivery (env1 env2 : Env) (req : Request) (event : Event)
    (items1 items2 : LineItemList) (first1 first2 : LineItem)
    (rest1 rest2 : list LineItem) (p1 p2 : Price)
    (config1 config2 : LineItemVariant.TierConfig) (w : World) :
  stripe_constructEvent env1 (body req) (stripe_signature req)
    (STRIPE_WEBHOOK_SECRET penv) = inl event ->
  stripe_constructEvent env2 (body req) (stripe_signature req)
    (STRIPE_WEBHOOK_SECRET penv) = inl event ->
  type event = checkout_session_completed ->
  let session := object (data event) in
  stripe_listLineItems env1 (id session) 10 = inl items1 ->
  li_data items1 = Some (first1 :: rest1) -> price first1 = Some p1 ->
  LineItemVariant.TIER_CONFIG !! price_id p1 = Some config1 ->
  stripe_listLineItems env2 (id session) 10 = inl items2 ->
  li_data items2 = Some (first2 :: rest2) -> price first2 = Some p2 ->
  LineItemVariant.TIER_CONFIG !! price_id p2 = Some config2 ->
  let row1 := line_item_row env1 session config1 in
  let row2 := line_item_row env2 session config2 in
  sheets_append env1 (LineItemVariant.append_request penv [row1]) = None ->
  sheets_append env2 (LineItemVariant.append_request penv [row2]) = None ->
  let w1 := snd (LineItemVariant.stripe_webhook penv env1 req w) in
  let w2 := snd (LineItemVariant.stripe_webhook penv env2 req w1) in
  ledger w2 = ledger w ++ [row1; row2] /\
  row1 !! 5%nat = Some (Str (id session)) /\
  row2 !! 5%nat = Some (Str (id session)).
Proof.
  intros Hv1 Hv2 Hty session Hi1 Hd1 Hp1 Hc1 Hi2 Hd2 Hp2 Hc2 row1 row2
         Ha1 Ha2 w1 w2.
  split; [| split; reflexivity].
  unfold w2, w1.
  rewrite (line_item_webhook_checkout penv env1 req event w Hv1 Hty).
  cbv zeta.
  rewrite (line_items_priced penv env1 _ items1 first1 rest1 p1 config1 _
             Hi1 Hd1 Hp1 Hc1).
  cbv zeta. fold session. fold row1. rewrite Ha1. simpl snd.
  rewrite (line_item_webhook_checkout penv env2 req event _ Hv2 Hty).
  cbv zeta.
  rewrite (line_items_priced penv env2 _ items2 first2 rest2 p2 config2 _
             Hi2 Hd2 Hp2 Hc2).
  cbv zeta. fold session. fold row2. rewrite Ha2. simpl.
  now rewrite <- app_assoc.
Qed.

(** [server.js]: the outcome, the call and the row added do not depend on
    the rows already in the ledger. *)
Lemma server_handle_oblivious (env : Env) (session : Session)
    (rows1 rows2 : list Row) (t : list Call) :
  exists (o : Outcome unit) (calls : list Call) (added : list Row),
    Server.handleCheckoutCompleted penv env session
      {| ledger := rows1; trace := t |}
      = (o, {| ledger := rows1 ++ added; trace := t ++ calls |}) /\
    Server.handleCheckoutCompleted penv env session
      {| ledger := rows2; trace := t |}
      = (o, {| ledger := rows2 ++ added; trace := t ++ calls |}).
Proof.
  rewrite !server_handle_run. cbv zeta. simpl.
  destruct (sheets_append env _) as [e |].
  - exists (Thrown e), [SheetsAppend
                          (server_request penv (Server.founderRecord env session))], [].
    now rewrite !app_nil_r.
  - eexists (Returned tt), [_], [_]. split; reflexivity.
Qed.

(** C7.  Every delivery of a qualifying checkout-completed event makes
    exactly one append call, carrying exactly one row: any checkout session
    in [server.js], a session whose first line item has a known price in the
    line-item program (after the one listing call).  The row is added when
    the sheet accepts the call and nothing is written when it throws.  The
    handlers never read the ledger: outcome, calls and added rows are the
    same whatever rows it already holds.  So two deliveries of the same
    event, both accepted by the sheet, leave two rows with the same session
    identifier. *)
Theorem one_append_per_delivery_no_deduplication :
  (forall (env : Env) (session : Session) (w : World),
      let founder := Server.founderRecord env session in
      let req := server_request penv founder in
      let w' := snd (Server.handleCheckoutCompleted penv env session w) in
      trace w' = trace w ++ [SheetsAppend req] /\
      values req = [Server.sheet_row founder] /\
      (sheets_append env req = None ->
       ledger w' = ledger w ++ [Server.sheet_row founder]) /\
      (sheets_append env req <> None -> ledger w' = ledger w)) /\
  (forall (env : Env) (session : Session) (items : LineItemList)
          (first : LineItem) (rest : list LineItem) (p : Price)
          (config : LineItemVariant.TierConfig) (w : World),
      stripe_listLineItems env (id session) 10 = inl items ->
      li_data items = Some (first :: rest) -> price first = Some p ->
      LineItemVariant.TIER_CONFIG !! price_id p = Some config ->
      let row := line_item_row env session config in
      let req := LineItemVariant.append_request penv [row] in
      let w' := snd (LineItemVariant.handleCheckoutCompleted penv env session w) in
      trace w' = trace w ++ [ListLineItems (id session) 10; SheetsAppend req] /\
      values req = [row] /\
      (sheets_append env req = None -> ledger w' = ledger w ++ [row]) /\
      (sheets_append env req <> None -> ledger w' = ledger w)) /\
  (forall (env : Env) (session : Session) (rows1 rows2 : list Row)
          (t : list Call),
      (exists (o : Outcome unit) (calls : list Call) (added : list Row),
          Server.handleCheckoutCompleted penv env session
            {| ledger := rows1; trace := t |}
            = (o, {| ledger := rows1 ++ added; trace := t ++ calls |}) /\
          Server.handleCheckoutCompleted penv env session
            {| ledger := rows2; trace := t |}
            = (o, {| ledger := rows2 ++ added; trace := t ++ calls |})) /\
      (exists (o : Outcome unit) (calls : list Call) (added : list Row),
          LineItemVariant.handleCheckoutCompleted penv env session
            {| ledger := rows1; trace := t |}
            = (o, {| ledger := rows1 ++ added; trace := t ++ calls |}) /\
          LineItemVariant.handleCheckoutCompleted penv env session
            {| ledger := rows2; trace := t |}
            = (o, {| ledger := rows2 ++ added; trace := t ++ calls |}))) /\
  (forall (env1 env2 : Env) (req : Request) (event : Event) (w : World),
      truthy (STRIPE_WEBHOOK_SECRET penv) = true ->
      stripe_constructEvent env1 (body req) (stripe_signature req)
        (STRIPE_WEBHOOK_SECRET penv) = inl event ->
      stripe_constructEvent env2 (body req) (stripe_signature req)
        (STRIPE_WEBHOOK_SECRET penv) = inl event ->
      type event = checkout_session_completed ->
      let session := object (data event) in
      let founder1 := Server.founderRecord env1 session in
      let founder2 := Server.founderRecord env2 session in
      sheets_append env1 (server_request penv founder1) = None ->
      sheets_append env2 (server_request penv founder2) = None ->
      let w1 := snd (Server.stripe_webhook penv env1 req w) in
      let w2 := snd (Server.stripe_webhook penv env2 req w1) in
      ledger w2
        = ledger w ++ [Server.sheet_row founder1; Server.sheet_row founder2] /\
      Server.sheet_row founder1 !! column_index SessionID
        = Some (Str (id session)) /\
      Server.sheet_row founder2 !! column_index SessionID
        = Some (Str (id session))) /\
  (forall (env1 env2 : Env) (req : Request) (event : Event)
          (items1 items2 : LineItemList) (first1 first2 : LineItem)
          (rest1 rest2 : list LineItem) (p1 p2 : Price)
          (config1 config2 : LineItemVariant.TierConfig) (w : World),
      stripe_constructEvent env1 (body req) (stripe_signature req)
        (STRIPE_WEBHOOK_SECRET penv) = inl event ->
      stripe_constructEvent env2 (body req) (stripe_signature req)
        (STRIPE_WEBHOOK_SECRET penv) = inl event ->
      type event = checkout_session_completed ->
      let session := object (data event) in
      stripe_listLineItems env1 (id session) 10 = inl items1 ->
      li_data items1 = Some (first1 :: rest1) -> price first1 = Some p1 ->
      LineItemVariant.TIER_CONFIG !! price_id p1 = Some config1 ->
      stripe_listLineItems env2 (id session) 10 = inl items2 ->
      li_data items2 = Some (first2 :: rest2) -> price first2 = Some p2 ->
      LineItemVariant.TIER_CONFIG !! price_id p2 = Some config2 ->
      let row1 := line_item_row env1 session config1 in
      let row2 := line_item_row env2 session config2 in
      sheets_append env1 (LineItemVariant.append_request penv [row1]) = None ->
      sheets_append env2 (LineItemVariant.append_request penv [row2]) = None ->
      let w1 := snd (LineItemVariant.stripe_webhook penv env1 req w) in
      let w2 := snd (LineItemVariant.stripe_webhook penv env2 req w1) in
      ledger w2 = ledger w ++ [row1; row2] /\
      row1 !! 5%nat = Some (Str (id session)) /\
      row2 !! 5%nat = Some (Str (id session))).
Proof.
  split; [| split; [| split; [| split]]].
  - intros env session w founder req w'. unfold w'.
    rewrite server_handle_run. fold founder. fold req.
    destruct (sheets_append env req) as [e |]; simpl;
      repeat split; try reflexivity; intros; congruence.
  - intros env session items first rest p config w Hi Hd Hp Hc row req w'.
    unfold w'.
    rewrite (line_items_priced penv env session items first rest p config w
               Hi Hd Hp Hc).
    cbv zeta. fold row. fold req.
    destruct (sheets_append env req) as [e |]; simpl;
      rewrite <- ?app_assoc; simpl;
      repeat split; try reflexivity; intros; congruence.
  - intros env session rows1 rows2 t. split.
    + apply server_handle_oblivious.
    + apply line_item_handle_oblivious.
  - exact server_redelivery.
  - exact line_item_redelivery.
Qed.

End Deliveries.

(** The same event delivered twice to [server.js]: two rows. *)
Lemma one_append_per_delivery_no_deduplication_witness :
  List.length
    (ledger (snd (Server.stripe_webhook Sample.configured Sample.checkout_env
                    Sample.signed
                    (snd (Server.stripe_webhook Sample.configured
                            Sample.checkout_env Sample.signed Sample.world0)))))
  = 2%nat.
Proof.
  destruct (one_append_per_delivery_no_deduplication Sample.configured)
    as (_ & _ & _ & Hserver & _).
  destruct (Hserver Sample.checkout_env Sample.checkout_env Sample.signed
              Sample.checkout_event Sample.world0) as (Hledger & _).
  - vm_compute. reflexivity.
  - vm_compute. reflexivity.
  - vm_compute. reflexivity.
  - reflexivity.
  - reflexivity.
  - reflexivity.
  - rewrite Hledger. reflexivity.
Defined.

(** The same for the line-item program. *)
Example line_item_redelivery_two_rows :
  List.map (fun row => (row !! 2%nat, row !! 5%nat))
    (ledger (snd (LineItemVariant.stripe_webhook Sample.configured
                    Sample.checkout_env Sample.signed
                    (snd (LineItemVariant.stripe_webhook Sample.configured
                            Sample.checkout_env Sample.signed Sample.world0)))))
  = [ (Some (Str "Bronze"), Some (Str "cs_test_checkout"));
      (Some (Str "Bronze"), Some (Str "cs_test_checkout")) ].
Proof. vm_compute. reflexivity. Qed.

(** * The ledger row *)

Lemma server_row_columns (founder : Server.FounderRecord) :
  Server.sheet_row founder =
    [ Str (Server.timestampUtc founder);
      Str (Server.timestampLocal founder);
      Str (Server.email founder);
      Str (Server.tier founder);
      Num (or_zero (Server.amountTotal founder));
      Num (or_zero (inject_Z (Server.credits founder)));
      Str (Server.sessionId founder);
      Str (Server.customerId founder);
      Str (Server.notes founder);
      Str "";
      Str (Server.agreementVersion founder) ].
Proof. unfold Server.sheet_row. now rewrite !or_str_Some. Qed.

(** The rows a delivery to [server.js] adds to the ledger: none, or the row
    of the record built from the session. *)
Lemma server_route_rows (penv : ProcessEnv) (env : Env) (req : Request)
    (w : World) :
  ledger (snd (Server.stripe_webhook penv env req w)) = ledger w \/
  exists session : Session,
    ledger (snd (Server.stripe_webhook penv env req w))
      = ledger w ++ [Server.sheet_row (Server.founderRecord env session)].
Proof.
  destruct (truthy (STRIPE_WEBHOOK_SECRET penv)) eqn:Hs.
  2:{ left. now rewrite webhook_unconfigured. }
  destruct (stripe_constructEvent env (body req) (stripe_signature req)
              (STRIPE_WEBHOOK_SECRET penv)) as [event | err] eqn:Hv.
  2:{ left. now rewrite (webhook_rejected penv env req err w Hs Hv). }
  destruct (String.eqb_spec (type event) checkout_session_completed)
    as [Hty | Hty].
  2:{ left. now rewrite (webhook_ignored penv env req event w Hs Hv Hty). }
  rewrite (webhook_checkout penv env req event w Hs Hv Hty). cbv zeta.
  destruct (sheets_append env _); [left | right]; simpl; eauto.
Qed.

(** C8 (amended).  [server.js] serializes a founder record into eleven
    columns in the order Timestamp-UTC, Timestamp-Local, Email, Tier,
    AmountPaidUSD, Credits, SessionID, CustomerID, Notes, Status,
    AgreementVersion; the Status cell is always the empty string, and for
    the records the handler builds, hence for every row a delivery adds to
    the ledger, the Notes cell is empty too.  The writer of the line-item
    program emits eight columns instead: timestamp, email, tier, amount,
    credits, session, customer and an empty last cell. *)
Theorem ledger_row_schema :
  (forall founder : Server.FounderRecord,
      Server.sheet_row founder =
        [ Str (Server.timestampUtc founder);
          Str (Server.timestampLocal founder);
          Str (Server.email founder);
          Str (Server.tier founder);
          Num (or_zero (Server.amountTotal founder));
          Num (or_zero (inject_Z (Server.credits founder)));
          Str (Server.sessionId founder);
          Str (Server.customerId founder);
          Str (Server.notes founder);
          Str "";
          Str (Server.agreementVersion founder) ] /\
      (or_zero (Server.amountTotal founder) == Server.amountTotal founder)%Q /\
      (or_zero (inject_Z (Server.credits founder))
         == inject_Z (Server.credits founder))%Q /\
      List.length (Server.sheet_row founder) = List.length ledger_schema /\
      Server.sheet_row founder !! column_index Status = Some (Str "")) /\
  (forall (env : Env) (session : Session),
      Server.sheet_row (Server.founderRecord env session) !! column_index Notes
        = Some (Str "") /\
      Server.sheet_row (Server.founderRecord env session)
        !! column_index AgreementVersion = Some (Str "v1.0")) /\
  (forall (penv : ProcessEnv) (env : Env) (req : Request) (w : World),
      exists rows : list Row,
        ledger (snd (Server.stripe_webhook penv env req w)) = ledger w ++ rows /\
        Forall (fun row : Row =>
                  List.length row = 11%nat /\
                  row !! column_index Notes = Some (Str "") /\
                  row !! column_index Status = Some (Str "")) rows) /\
  (forall (timestamp email tier : string) (amountTotal : Q) (credits : Z)
          (sessionId customerId : string),
      LineItemVariant.sheet_row timestamp email tier amountTotal credits
        sessionId customerId
      = [ Str timestamp; Str email; Str tier; Num amountTotal;
          Num (inject_Z credits); Str sessionId; Str customerId; Str "" ] /\
      List.length (LineItemVariant.sheet_row timestamp email tier amountTotal
                     credits sessionId customerId) = 8%nat).
Proof.
  split; [| split; [| split]].
  - intros founder. rewrite server_row_columns.
    repeat split; try reflexivity; apply or_zero_eq.
  - intros env session. rewrite server_row_columns. split; reflexivity.
  - intros penv env req w.
    destruct (server_route_rows penv env req w) as [-> | (session & ->)].
    + exists []. split; [now rewrite app_nil_r | constructor].
    + eexists; split; [reflexivity |].
      constructor; [| constructor].
      rewrite server_row_columns. repeat split; reflexivity.
  - intros. split; reflexivity.
Qed.

(** C8 as stated fails on the line-item program: the row it writes for the
    sample checkout has eight columns. *)
Lemma line_item_program_writes_eight_columns :
  ledger (snd (LineItemVariant.stripe_webhook Sample.configured
                 Sample.checkout_env Sample.signed Sample.world0))
  = [ [ Str "2025-11-02T19:00:00.000Z"; Str "unknown"; Str "Bronze";
        Num (500000 # 100); Num (325 # 1); Str "cs_test_checkout"; Str "";
        Str "" ] ] /\
  Forall (fun row : Row => List.length row <> List.length ledger_schema)
    (ledger (snd (LineItemVariant.stripe_webhook Sample.configured
                    Sample.checkout_env Sample.signed Sample.world0))).
Proof.
  split; [vm_compute; reflexivity |].
  vm_compute. constructor; [discriminate | constructor].
Qed.

(** The row [server.js] writes for the same delivery. *)
Example server_row_of_sample_checkout :
  ledger (snd (Server.stripe_webhook Sample.configured Sample.checkout_env
                 Sample.signed Sample.world0))
  = [ [ Str "2025-11-02T19:00:00.000Z"; Str "11/2/2025, 1:00:00 PM";
        Str ""; Str "Titan"; Num (500000 # 100); Num (8000 # 1);
        Str "cs_test_checkout"; Str ""; Str ""; Str ""; Str "v1.0" ] ].
Proof. vm_compute. reflexivity. Qed.

(** * Start of the process *)

(** C9 (amended).  In [server.js] the check at process scope concerns the
    secret API key: without it the process exits with code 1 before
    listening.  The signing secret plays no part at start, the process
    listens with or without it; it is checked on each request, and a request
    arriving while it is not provisioned is answered 500 "Webhook secret not
    configured" without being verified or processed (no call is made, the
    ledger is untouched). *)
Theorem signing_secret_checked_per_request :
  forall (penv : ProcessEnv) (host : Host),
    (forall secret : option string,
        Server.boot (with_webhook_secret penv secret) host
        = Server.boot penv host) /\
    (truthy (STRIPE_SECRET_KEY penv) = false -> Server.boot penv host = Exit 1) /\
    (truthy (STRIPE_WEBHOOK_SECRET penv) = false ->
     forall (env : Env) (req : Request) (w : World),
       Server.stripe_webhook penv env req w
       = (Returned {| status := 500;
                      payload := Send "Webhook secret not configured" |}, w)).
Proof.
  intros penv host. split; [| split].
  - intros secret. reflexivity.
  - intros H. unfold Server.boot. now rewrite H.
  - intros H env req w. now apply webhook_unconfigured.
Qed.

Lemma signing_secret_checked_per_request_witness :
  Server.stripe_webhook (Sample.penv None) Sample.checkout_env Sample.signed
    Sample.world0
  = (Returned {| status := 500; payload := Send "Webhook secret not configured" |},
     Sample.world0).
Proof.
  destruct (signing_secret_checked_per_request (Sample.penv None) Sample.host)
    as (_ & _ & Hrequest).
  apply Hrequest. reflexivity.
Defined.

(** C9 as stated fails: with the API key and the credentials in place and
    no signing secret, the process does not refuse to serve, it listens. *)
Lemma process_listens_without_signing_secret :
  truthy (STRIPE_WEBHOOK_SECRET (Sample.penv None)) = false /\
  Server.boot (Sample.penv None) Sample.host = Listening "8080" /\
  (forall code : Z, Server.boot (Sample.penv None) Sample.host <> Exit code).
Proof.
  split; [reflexivity |]. split; [vm_compute; reflexivity |].
  intros code. vm_compute. discriminate.
Qed.

(** * The first line item *)

(** The listing call comes first, asks for 10 items, and is the only one. *)
Lemma line_item_listing_call (penv : ProcessEnv) (env : Env)
    (session : Session) (w : World) :
  exists (o : Outcome unit) (rows : list Row) (calls : list Call),
    LineItemVariant.handleCheckoutCompleted penv env session w
      = (o, {| ledger := rows;
               trace := trace w ++ ListLineItems (id session) 10 :: calls |}) /\
    Forall (fun c => match c with ListLineItems _ _ => False | _ => True end)
      calls.
Proof.
  unfold LineItemVariant.handleCheckoutCompleted, LineItemVariant.appendToSheet.
  run_monad. unfold record_call; simpl.
  destruct (stripe_listLineItems env (id session) 10) as [items | e]; simpl.
  2:{ eexists _, _, []. split; [reflexivity | constructor]. }
  destruct (li_data items) as [[| first rest] |]; simpl.
  1,3: eexists _, _, []; split; [reflexivity | constructor].
  destruct (price first) as [p |]; simpl.
  2:{ eexists _, _, []. split; [reflexivity | constructor]. }
  destruct (LineItemVariant.TIER_CONFIG_get (price_id p)) as [config | |];
    simpl.
  3:{ eexists _, _, []. split; [reflexivity | constructor]. }
  all: destruct (sheets_append env _) as [e |]; simpl;
    eexists _, _, [SheetsAppend _]; rewrite <- app_assoc;
    (split; [reflexivity | repeat constructor]).
Qed.

(** C10.  In the line-item program the listing of the line items is the
    first call, asks for at most 10 items and is made once.  When the first
    item listed has a price of the tier table, the one row appended carries
    the tier and the credits of that price, whatever the session's amount
    and metadata; the items after the first play no part: replacing them
    changes nothing in the outcome, the calls or the ledger. *)
Theorem first_line_item_decides :
  forall (penv : ProcessEnv) (env : Env) (session : Session) (w : World),
    (exists (o : Outcome unit) (rows : list Row) (calls : list Call),
        LineItemVariant.handleCheckoutCompleted penv env session w
          = (o, {| ledger := rows;
                   trace := trace w ++ ListLineItems (id session) 10 :: calls |}) /\
        Forall (fun c => match c with ListLineItems _ _ => False | _ => True end)
          calls) /\
    (forall (items : LineItemList) (first : LineItem) (rest : list LineItem)
            (p : Price) (config : LineItemVariant.TierConfig),
        stripe_listLineItems env (id session) 10 = inl items ->
        li_data items = Some (first :: rest) -> price first = Some p ->
        LineItemVariant.TIER_CONFIG !! price_id p = Some config ->
        let row := line_item_row env session config in
        append_requests
          (trace (snd (LineItemVariant.handleCheckoutCompleted penv env session w)))
          = append_requests (trace w)
            ++ [LineItemVariant.append_request penv [row]] /\
        row !! 2%nat = Some (Str (LineItemVariant.tier config)) /\
        row !! 4%nat = Some (Num (inject_Z (LineItemVariant.credits config)))) /\
    (forall (first : LineItem) (rest1 rest2 : list LineItem),
        LineItemVariant.handleCheckoutCompleted penv
          (with_line_items env {| li_data := Some (first :: rest1) |}) session w
        = LineItemVariant.handleCheckoutCompleted penv
            (with_line_items env {| li_data := Some (first :: rest2) |}) session w).
Proof.
  intros penv env session w. split; [| split].
  - apply line_item_listing_call.
  - intros items first rest p config Hi Hd Hp Hc row.
    rewrite (line_items_priced penv env session items first rest p config w
               Hi Hd Hp Hc).
    cbv zeta. fold row. split; [| split; reflexivity].
    destruct (sheets_append env _); simpl;
      rewrite ?append_requests_app; simpl;
      rewrite ?append_requests_app; simpl; now rewrite app_nil_r.
  - intros first rest1 rest2.
    unfold LineItemVariant.handleCheckoutCompleted. run_monad. reflexivity.
Qed.

(** Bronze price first, Titan price second, 5000.00 dollars paid: the row is
    a Bronze row with 325 credits. *)
Lemma first_line_item_decides_witness :
  append_requests
    (trace (snd (LineItemVariant.handleCheckoutCompleted Sample.configured
                   Sample.checkout_env
                   (object (data Sample.checkout_event)) Sample.world0)))
  = [ {| spreadsheetId := Some "sheet-founders";
         range := "Sheet1!A:H";
         valueInputOption := "USER_ENTERED";
         values := [ [ Str "2025-11-02T19:00:00.000Z"; Str "unknown";
                       Str "Bronze"; Num (500000 # 100); Num (325 # 1);
                       Str "cs_test_checkout"; Str ""; Str "" ] ] |} ].
Proof.
  destruct (first_line_item_decides Sample.configured Sample.checkout_env
              (object (data Sample.checkout_event)) Sample.world0)
    as (_ & Hpriced & _).
  destruct (Hpriced {| li_data := Some [Sample.item Sample.bronze_price;
                                        Sample.item Sample.titan_price] |}
              (Sample.item Sample.bronze_price)
              [Sample.item Sample.titan_price]
              {| price_id := Sample.bronze_price |}
              {| LineItemVariant.tier := "Bronze";
                 LineItemVariant.contribution := 250;
                 LineItemVariant.credits := 325 |})
    as (Hreq & _ & _).
  - reflexivity.
  - reflexivity.
  - reflexivity.
  - vm_compute. reflexivity.
  - rewrite Hreq. vm_compute. reflexivity.
Defined.

(** * Further properties of the tier resolver *)

Section TierResolverMore.

Import TierResolver.
Local Open Scope Q_scope.

Lemma Math_round_le (a b : Q) : a <= b -> (Math_round a <= Math_round b)%Z.
Proof.
  intros H. unfold Math_round. apply Qfloor_resp_le.
  apply Qplus_le_compat; [exact H | apply Qle_refl].
Qed.

Lemma Math_round_below (a : Q) (n : Z) :
  a + (1 # 2) < inject_Z n -> (Math_round a < n)%Z.
Proof.
  intros H. rewrite Zlt_Qlt.
  eapply Qle_lt_trans; [apply Math_round_upper | exact H].
Qed.

Lemma Math_round_at_least (a : Q) (n : Z) :
  inject_Z n <= a + (1 # 2) -> (n <= Math_round a)%Z.
Proof.
  intros H. unfold Math_round.
  rewrite <- (Qfloor_Z n). now apply Qfloor_resp_le.
Qed.

Lemma Qle_bool_trans_true (t a b : Q) :
  a <= b -> Qle_bool t a = true -> Qle_bool t b = true.
Proof.
  intros Hab H. apply Qle_bool_iff in H. apply Qle_bool_iff.
  eapply Qle_trans; eassumption.
Qed.

Lemma metadata_tier_truthy (session : Session) (t : string) :
  metadata_tier session = Some t -> t <> ""%string.
Proof.
  unfold metadata_tier. destruct (metadata session) as [m |]; [| discriminate].
  destruct (m !! "tier"%string) as [t' |]; [| discriminate].
  unfold truthy_str. destruct (decide (t' = ""%string)); [discriminate |].
  intros [= <-]. assumption.
Qed.

Lemma resolveTier_by_amount (session : Session) :
  metadata_tier session = None ->
  resolveTier session =
    let a := amount_usd session in
    if Qle_bool 5000 a then "Titan"%string
    else if Qle_bool 2000 a then "Gold"%string
    else if Qle_bool 750 a then "Silver"%string
    else if Qle_bool 250 a then "Bronze"%string
    else "Unknown"%string.
Proof. intros H. unfold resolveTier. now rewrite H. Qed.

(** X1.  The tier [resolveTier] returns is never the empty string; without
    tier metadata it is one of "Titan", "Gold", "Silver", "Bronze",
    "Unknown", so the Tier cell of a row [server.js] writes is never blank. *)
Theorem resolveTier_never_blank :
  forall session : Session,
    resolveTier session <> ""%string /\
    (metadata_tier session = None ->
     In (resolveTier session)
        ["Titan"; "Gold"; "Silver"; "Bronze"; "Unknown"]%string) /\
    (forall env : Env,
        Server.sheet_row (Server.founderRecord env session)
          !! column_index Tier = Some (Str (resolveTier session))).
Proof.
  intros session. split; [| split].
  - destruct (metadata_tier session) as [t |] eqn:Hm.
    + unfold resolveTier. rewrite Hm. now apply (metadata_tier_truthy session).
    + rewrite (resolveTier_by_amount session Hm). cbv zeta.
      repeat (match goal with |- context [Qle_bool ?x ?y] =>
                                destruct (Qle_bool x y) end; try discriminate).
  - intros Hm. rewrite (resolveTier_by_amount session Hm). cbv zeta.
    repeat (match goal with |- context [Qle_bool ?x ?y] =>
                              destruct (Qle_bool x y) end;
            try (simpl; tauto)).
  - intros env. rewrite server_row_columns. reflexivity.
Qed.

Lemma resolveTier_never_blank_witness :
  In (resolveTier (plain_session "cs_test_x1" 80000))
     ["Titan"; "Gold"; "Silver"; "Bronze"; "Unknown"]%string.
Proof.
  destruct (resolveTier_never_blank (plain_session "cs_test_x1" 80000))
    as (_ & Hin & _).
  apply Hin. reflexivity.
Defined.

(** X2.  Without tier metadata the tier never goes down when the amount goes
    up: a session paying at least as much as another gets a tier at least as
    high in the order Unknown, Bronze, Silver, Gold, Titan. *)
Theorem resolveTier_monotone :
  forall s1 s2 : Session,
    metadata_tier s1 = None -> metadata_tier s2 = None ->
    amount_usd s1 <= amount_usd s2 ->
    (tier_rank (resolveTier s1) <= tier_rank (resolveTier s2))%nat.
Proof.
  intros s1 s2 H1 H2 Hle.
  rewrite (resolveTier_by_amount s1 H1), (resolveTier_by_amount s2 H2).
  cbv zeta.
  pose proof (fun t => Qle_bool_trans_true t _ _ Hle) as Hup.
  destruct (Qle_bool 5000 (amount_usd s1)) eqn:E5.
  { rewrite (Hup _ E5). apply le_n. }
  destruct (Qle_bool 2000 (amount_usd s1)) eqn:E2.
  { rewrite (Hup _ E2). destruct (Qle_bool 5000 (amount_usd s2)); cbn; lia. }
  destruct (Qle_bool 750 (amount_usd s1)) eqn:E7.
  { rewrite (Hup _ E7).
    destruct (Qle_bool 5000 (amount_usd s2)), (Qle_bool 2000 (amount_usd s2));
      cbn; lia. }
  destruct (Qle_bool 250 (amount_usd s1)) eqn:E25.
  { rewrite (Hup _ E25).
    destruct (Qle_bool 5000 (amount_usd s2)), (Qle_bool 2000 (amount_usd s2)),
      (Qle_bool 750 (amount_usd s2)); cbn; lia. }
  cbn. lia.
Qed.

Lemma resolveTier_monotone_witness :
  (tier_rank (resolveTier (plain_session "cs_test_x2" 30000))
   <= tier_rank (resolveTier (plain_session "cs_test_x2" 210000)))%nat.
Proof.
  apply resolveTier_monotone; [reflexivity | reflexivity |].
  vm_compute. discriminate.
Defined.

(** X3.  A non-negative amount never yields negative credits. *)
Theorem resolveCredits_nonnegative :
  forall (tier : string) (a : Q),
    0 <= a -> (0 <= resolveCredits tier a)%Z.
Proof.
  intros tier a Ha. unfold resolveCredits.
  repeat (match goal with |- context [(?x =? ?y)%Z] =>
                            destruct (x =? y)%Z end; try lia).
  apply Math_round_at_least.
  apply Qle_trans with (a * (13 # 10)).
  - apply Qmult_le_0_compat; [exact Ha | discriminate].
  - rewrite <- (Qplus_0_r (a * (13 # 10))) at 1.
    apply Qplus_le_compat; [apply Qle_refl | discriminate].
Qed.

Lemma resolveCredits_nonnegative_witness :
  (0 <= resolveCredits "Unknown" (1 # 4))%Z.
Proof. apply resolveCredits_nonnegative. discriminate. Defined.

(** X4.  Outside the four table amounts the credits grow with the amount:
    when neither of two amounts rounds to 250, 750, 2000 or 5000, the larger
    one gets at least as many credits. *)
Theorem resolveCredits_fallback_monotone :
  forall (tier : string) (a b : Q),
    ~ In (Math_round a) [250; 750; 2000; 5000]%Z ->
    ~ In (Math_round b) [250; 750; 2000; 5000]%Z ->
    a <= b ->
    (resolveCredits tier a <= resolveCredits tier b)%Z.
Proof.
  intros tier a b Ha Hb Hle. simpl in Ha, Hb.
  rewrite !resolveCredits_fallback by (intros E; intuition congruence).
  apply Math_round_le.
  apply Qmult_le_compat_r; [exact Hle | discriminate].
Qed.

Lemma resolveCredits_fallback_monotone_witness :
  (resolveCredits "Bronze" 100 <= resolveCredits "Bronze" 300)%Z.
Proof.
  apply resolveCredits_fallback_monotone.
  - vm_compute. intuition discriminate.
  - vm_compute. intuition discriminate.
  - discriminate.
Defined.

(** Between [lo + 1/2] and [hi] the credits are the fallback ones and stay
    below [v], as soon as [1.3 * hi + 1/2 < v] and no table amount lies in
    between. *)
Lemma fallback_below (tier : string) (b : Q) (lo hi v : Z) :
  (forall z, lo < z <= hi -> ~ In z [250; 750; 2000; 5000])%Z ->
  (13 * hi + 5 < 10 * v)%Z ->
  inject_Z lo + (1 # 2) <= b -> b < inject_Z hi ->
  (resolveCredits tier b < v)%Z.
Proof.
  intros Htable Hv Hlo Hhi.
  assert (Hr : (lo < Math_round b <= hi)%Z).
  { split.
    - enough (lo + 1 <= Math_round b)%Z by lia.
      apply Math_round_at_least.
      destruct b as [n d]. unfold Qle, Qplus, inject_Z in *; simpl in *. lia.
    - enough (Math_round b < hi + 1)%Z by lia.
      apply Math_round_below.
      destruct b as [n d]. unfold Qlt, Qplus, inject_Z in *; simpl in *. lia. }
  specialize (Htable _ Hr). simpl in Htable.
  rewrite resolveCredits_fallback by (intros E; intuition congruence).
  apply Math_round_below.
  destruct b as [n d]. unfold Qlt, Qplus, Qmult, inject_Z in *; simpl in *.
  rewrite !Pos2Z.inj_mul. nia.
Qed.

(** X6.  The credits are not monotone in the amount: the table entries for
    750, 2000 and 5000 dollars are worth more than 1.3 times the amount, so
    a payment between 750.50 and 807, between 2000.50 and 2307, or between
    5000.50 and 6153 dollars gets fewer credits than the table amount just
    below it. *)
Theorem resolveCredits_drops_above_table_amount :
  forall (tier : string) (b : Q),
    (750 + (1 # 2) <= b -> b < 807 ->
     (resolveCredits tier b < resolveCredits tier 750)%Z) /\
    (2000 + (1 # 2) <= b -> b < 2307 ->
     (resolveCredits tier b < resolveCredits tier 2000)%Z) /\
    (5000 + (1 # 2) <= b -> b < 6153 ->
     (resolveCredits tier b < resolveCredits tier 5000)%Z).
Proof.
  intros tier b. repeat split; intros Hlo Hhi.
  - change (resolveCredits tier 750) with 1050%Z.
    apply (fallback_below tier b 750 807 1050); try assumption; [| lia].
    intros z Hz [E | [E | [E | [E | []]]]]; lia.
  - change (resolveCredits tier 2000) with 3000%Z.
    apply (fallback_below tier b 2000 2307 3000); try assumption; [| lia].
    intros z Hz [E | [E | [E | [E | []]]]]; lia.
  - change (resolveCredits tier 5000) with 8000%Z.
    apply (fallback_below tier b 5000 6153 8000); try assumption; [| lia].
    intros z Hz [E | [E | [E | [E | []]]]]; lia.
Qed.

Lemma resolveCredits_drops_above_table_amount_witness :
  (resolveCredits "Titan" 5001 < resolveCredits "Titan" 5000)%Z.
Proof.
  destruct (resolveCredits_drops_above_table_amount "Titan" 5001)
    as (_ & _ & Hdrop).
  apply Hdrop; vm_compute; [discriminate | reflexivity].
Defined.

(** X7.  The two programs agree on the price table: for every entry of
    [TIER_CONFIG], a session that pays exactly the entry's contribution in
    dollars and carries no tier metadata gets from [resolveTier] and
    [resolveCredits] the entry's tier and credits, and the Tier,
    AmountPaidUSD and Credits cells both programs write are the same. *)
Theorem programs_agree_on_price_table :
  forall (priceId : string) (config : LineItemVariant.TierConfig)
         (sid : string) (env : Env),
    LineItemVariant.TIER_CONFIG !! priceId = Some config ->
    let session :=
      plain_session sid (LineItemVariant.contribution config * 100) in
    let server_row := Server.sheet_row (Server.founderRecord env session) in
    let line_row := line_item_row env session config in
    resolveTier session = LineItemVariant.tier config /\
    resolveCredits (resolveTier session) (amount_usd session)
      = LineItemVariant.credits config /\
    server_row !! column_index Tier = line_row !! 2%nat /\
    server_row !! column_index AmountPaidUSD = line_row !! 3%nat /\
    server_row !! column_index Credits = line_row !! 4%nat.
Proof.
  intros priceId config sid env H.
  unfold LineItemVariant.TIER_CONFIG in H.
  repeat (apply lookup_insert_Some in H as [[_ <-] | [_ H]];
          [vm_compute; repeat split; reflexivity |]).
  rewrite lookup_empty in H. discriminate.
Qed.

Lemma programs_agree_on_price_table_witness :
  resolveTier (plain_session "cs_test_x7" (2000 * 100)) = "Gold"%string.
Proof.
  apply (programs_agree_on_price_table "price_1SWdDaHeOH2hxFO31X6W21AK"
           {| LineItemVariant.tier := "Gold";
              LineItemVariant.contribution := 2000;
              LineItemVariant.credits := 3000 |}
           "cs_test_x7" (Sample.env Sample.checkout_event Sample.no_items)).
  vm_compute. reflexivity.
Defined.

End TierResolverMore.

(** * Further properties of the routes *)

Lemma world_eta (w : World) :
  w = {| ledger := ledger w ++ []; trace := trace w ++ [] |}.
Proof. destruct w; simpl. now rewrite !app_nil_r. Qed.

Lemma record_call_eta (c : Call) (w : World) :
  record_call c w = {| ledger := ledger w ++ []; trace := trace w ++ [c] |}.
Proof. unfold record_call. now rewrite app_nil_r. Qed.

Lemma record_call2_eta (c1 c2 : Call) (w : World) :
  record_call c2 (record_call c1 w)
  = {| ledger := ledger w ++ []; trace := trace w ++ [c1; c2] |}.
Proof. unfold record_call; simpl. now rewrite app_nil_r, <- app_assoc. Qed.

Section RouteShapes.

Variable penv : ProcessEnv.

(** The five ways a delivery to [server.js] can go. *)
Lemma server_route_shape (env : Env) (req : Request) (w : World) :
  let verification :=
    ConstructEvent (body req) (stripe_signature req) (STRIPE_WEBHOOK_SECRET penv) in
  exists (resp : Response) (calls : list Call) (rows : list Row),
    Server.stripe_webhook penv env req w
      = (Returned resp,
         {| ledger := ledger w ++ rows; trace := trace w ++ calls |}) /\
    ((status resp = 500%Z /\ calls = [] /\ rows = []) \/
     (status resp = 400%Z /\ calls = [verification] /\ rows = []) \/
     (status resp = 200%Z /\ calls = [verification] /\ rows = []) \/
     (exists r, status resp = 500%Z /\
                calls = [verification; SheetsAppend r] /\ rows = []) \/
     (exists r row, status resp = 200%Z /\
                    calls = [verification; SheetsAppend r] /\
                    rows = [row] /\ values r = [row])).
Proof.
  intros verification.
  destruct (truthy (STRIPE_WEBHOOK_SECRET penv)) eqn:Hs.
  2:{ rewrite (webhook_unconfigured penv env req w Hs).
      eexists _, [], []. split; [now rewrite <- world_eta | now left]. }
  destruct (stripe_constructEvent env (body req) (stripe_signature req)
              (STRIPE_WEBHOOK_SECRET penv)) as [event | err] eqn:Hv.
  2:{ rewrite (webhook_rejected penv env req err w Hs Hv).
      eexists _, [verification], [].
      split; [now rewrite record_call_eta | right; now left]. }
  destruct (String.eqb_spec (type event) checkout_session_completed)
    as [Hty | Hty].
  2:{ rewrite (webhook_ignored penv env req event w Hs Hv Hty).
      eexists _, [verification], [].
      split; [now rewrite record_call_eta | right; right; now left]. }
  rewrite (webhook_checkout penv env req event w Hs Hv Hty). cbv zeta.
  destruct (sheets_append env _) as [e |].
  - eexists _, [verification; SheetsAppend _], [].
    split; [now rewrite record_call2_eta |].
    right; right; right; left. eexists. now repeat split.
  - eexists _, [verification; SheetsAppend _], [_].
    split; [unfold record_call; simpl; now rewrite <- app_assoc |].
    right; right; right; right. eexists _, _. now repeat split.
Qed.

(** The ways [handleCheckoutCompleted] of the line-item program can go. *)
Lemma line_item_handle_shape (env : Env) (session : Session) (w : World) :
  let listing := ListLineItems (id session) 10 in
  exists (o : Outcome unit) (calls : list Call) (rows : list Row),
    LineItemVariant.handleCheckoutCompleted penv env session w
      = (o, {| ledger := ledger w ++ rows; trace := trace w ++ calls |}) /\
    ((exists e, o = Thrown e /\ calls = [listing] /\ rows = []) \/
     (exists e r, o = Thrown e /\ calls = [listing; SheetsAppend r] /\ rows = []) \/
     (exists r row, o = Returned tt /\ calls = [listing; SheetsAppend r] /\
                    rows = [row] /\ values r = [row])).
Proof.
  intros listing.
  unfold LineItemVariant.handleCheckoutCompleted, LineItemVariant.appendToSheet.
  run_monad. unfold record_call; simpl. fold listing.
  destruct (stripe_listLineItems env (id session) 10) as [items | e]; simpl.
  2:{ eexists _, [listing], []. rewrite app_nil_r. split; [reflexivity |].
      left. eexists. now repeat split. }
  destruct (li_data items) as [[| first rest] |]; simpl.
  1,3: eexists _, [listing], []; rewrite app_nil_r; (split; [reflexivity |]);
       left; eexists; now repeat split.
  destruct (price first) as [p |]; simpl.
  2:{ eexists _, [listing], []. rewrite app_nil_r. split; [reflexivity |].
      left. eexists. now repeat split. }
  destruct (LineItemVariant.TIER_CONFIG_get (price_id p)) as [config | |];
    simpl.
  3:{ eexists _, [listing], []. rewrite app_nil_r. split; [reflexivity |].
      left. eexists. now repeat split. }
  all: destruct (sheets_append env _) as [e |]; simpl.
  1,3: eexists _, [listing; SheetsAppend _], [];
       rewrite app_nil_r, <- app_assoc; (split; [reflexivity |]);
       right; left; eexists _, _; now repeat split.
  all: eexists _, [listing; SheetsAppend _], [_];
       rewrite <- app_assoc; (split; [reflexivity |]);
       right; right; eexists _, _; now repeat split.
Qed.

(** The ways a delivery to the line-item program can go. *)
Lemma line_item_route_shape (env : Env) (req : Request) (w : World) :
  let verification :=
    ConstructEvent (body req) (stripe_signature req) (STRIPE_WEBHOOK_SECRET penv) in
  exists (resp : Response) (calls : list Call) (rows : list Row),
    LineItemVariant.stripe_webhook penv env req w
      = (Returned resp,
         {| ledger := ledger w ++ rows; trace := trace w ++ calls |}) /\
    ((status resp = 400%Z /\ calls = [verification] /\ rows = []) \/
     (status resp = 200%Z /\ calls = [verification] /\ rows = []) \/
     (exists sid, status resp = 500%Z /\
                  calls = [verification; ListLineItems sid 10] /\ rows = []) \/
     (exists sid r, status resp = 500%Z /\
                    calls = [verification; ListLineItems sid 10; SheetsAppend r] /\
                    rows = []) \/
     (exists sid r row, status resp = 200%Z /\
                        calls = [verification; ListLineItems sid 10; SheetsAppend r] /\
                        rows = [row] /\ values r = [row])).
Proof.
  intros verification.
  destruct (stripe_constructEvent env (body req) (stripe_signature req)
              (STRIPE_WEBHOOK_SECRET penv)) as [event | err] eqn:Hv.
  2:{ rewrite (line_item_webhook_rejected penv env req err w Hv).
      eexists _, [verification], [].
      split; [now rewrite record_call_eta | now left]. }
  destruct (String.eqb_spec (type event) checkout_session_completed)
    as [Hty | Hty].
  2:{ rewrite (line_item_webhook_ignored penv env req event w Hv Hty).
      eexists _, [verification], [].
      split; [now rewrite record_call_eta | right; now left]. }
  rewrite (line_item_webhook_checkout penv env req event w Hv Hty). cbv zeta.
  fold verification.
  destruct (line_item_handle_shape env (object (data event))
              (record_call verification w))
    as (o & calls & rows & -> & Hshape).
  unfold record_call; simpl. rewrite <- !app_assoc. simpl.
  destruct Hshape as [(e & -> & -> & ->) |
                      [(e & r & -> & -> & ->) | (r & row & -> & -> & -> & Hr)]].
  - eexists _, _, []. split; [reflexivity |].
    right; right; left. eexists. now repeat split.
  - eexists _, _, []. split; [reflexivity |].
    right; right; right; left. eexists _, _. now repeat split.
  - eexists _, _, [_]. split; [reflexivity |].
    right; right; right; right. eexists _, _, _. now repeat split.
Qed.

End RouteShapes.

Lemma line_items_null_price (penv : ProcessEnv) (env : Env) (session : Session)
    (items : LineItemList) (first : LineItem) (rest : list LineItem) (w : World) :
  stripe_listLineItems env (id session) 10 = inl items ->
  li_data items = Some (first :: rest) ->
  price first = None ->
  LineItemVariant.handleCheckoutCompleted penv env session w =
    (Thrown (mkError "Cannot read properties of null (reading 'id')"),
     record_call (ListLineItems (id session) 10) w).
Proof.
  intros H Hd Hp. unfold LineItemVariant.handleCheckoutCompleted. run_monad.
  rewrite H. cbv beta iota. now rewrite Hd, Hp.
Qed.

(** X8.  Both routes answer every request: no exception escapes them, and
    the status of the answer is 200, 400 or 500. *)
Theorem routes_always_answer :
  forall (penv : ProcessEnv) (env : Env) (req : Request) (w : World),
    (exists resp w',
        Server.stripe_webhook penv env req w = (Returned resp, w') /\
        In (status resp) [200; 400; 500]%Z) /\
    (exists resp w',
        LineItemVariant.stripe_webhook penv env req w = (Returned resp, w') /\
        In (status resp) [200; 400; 500]%Z).
Proof.
  intros penv env req w. split.
  - destruct (server_route_shape penv env req w) as (resp & calls & rows & -> & H).
    eexists _, _. split; [reflexivity |]. simpl.
    destruct H as [(-> & _) | [(-> & _) | [(-> & _) |
                   [(r & -> & _) | (r & row & -> & _)]]]]; tauto.
  - destruct (line_item_route_shape penv env req w)
      as (resp & calls & rows & -> & H).
    eexists _, _. split; [reflexivity |]. simpl.
    destruct H as [(-> & _) | [(-> & _) | [(sid & -> & _) |
                   [(sid & r & -> & _) | (sid & r & row & -> & _)]]]]; tauto.
Qed.

(** X11.  In [server.js] a failed write is answered and not retried: when
    the sheet throws on the delivery of a checkout-completed event the
    answer is 500 "Internal Server Error" whatever the error was, and that
    delivery has made exactly one append call.  A second delivery of the
    event makes one more append call, for the same session, and is answered
    200 when the sheet accepts it. *)
Theorem failed_write_then_retry :
  forall (penv : ProcessEnv) (env1 env2 : Env) (req : Request) (event : Event)
         (e : Error) (w : World),
    truthy (STRIPE_WEBHOOK_SECRET penv) = true ->
    stripe_constructEvent env1 (body req) (stripe_signature req)
      (STRIPE_WEBHOOK_SECRET penv) = inl event ->
    stripe_constructEvent env2 (body req) (stripe_signature req)
      (STRIPE_WEBHOOK_SECRET penv) = inl event ->
    type event = checkout_session_completed ->
    let session := object (data event) in
    let request1 := server_request penv (Server.founderRecord env1 session) in
    let request2 := server_request penv (Server.founderRecord env2 session) in
    sheets_append env1 request1 = Some e ->
    let first := Server.stripe_webhook penv env1 req w in
    let second := Server.stripe_webhook penv env2 req (snd first) in
    fst first
      = Returned {| status := 500; payload := Send "Internal Server Error" |} /\
    append_requests (trace (snd first)) = append_requests (trace w) ++ [request1] /\
    append_requests (trace (snd second))
      = append_requests (trace w) ++ [request1; request2] /\
    (exists row1 row2,
        values request1 = [row1] /\ values request2 = [row2] /\
        row1 !! column_index SessionID = Some (Str (id session)) /\
        row2 !! column_index SessionID = Some (Str (id session))) /\
    (sheets_append env2 request2 = None ->
     fst second
       = Returned {| status := 200;
                     payload := SendJson (JObject "received" (JBool true)) |}).
Proof.
  intros penv env1 env2 req event e w Hs Hv1 Hv2 Hty session request1 request2
         Ha1 first second.
  unfold second, first.
  rewrite (webhook_checkout penv env1 req event w Hs Hv1 Hty). cbv zeta.
  fold session. fold request1. rewrite Ha1. simpl fst. simpl snd.
  rewrite (webhook_checkout penv env2 req event _ Hs Hv2 Hty). cbv zeta.
  fold session. fold request2.
  split; [reflexivity |].
  split.
  { unfold record_call; simpl. rewrite !append_requests_app; simpl.
    now rewrite app_nil_r. }
  split.
  { destruct (sheets_append env2 request2); unfold record_call; simpl;
      rewrite !append_requests_app; simpl;
      rewrite ?app_nil_r, <- ?app_assoc; reflexivity. }
  split.
  { eexists _, _. split; [reflexivity |]. split; [reflexivity |].
    split; unfold Server.sheet_row; rewrite !or_str_Some; reflexivity. }
  intros Ha2. now rewrite Ha2.
Qed.

Lemma failed_write_then_retry_witness :
  fst (Server.stripe_webhook Sample.configured
         (with_sheet Sample.checkout_env (Some (mkError "quota exceeded")))
         Sample.signed Sample.world0)
  = Returned {| status := 500; payload := Send "Internal Server Error" |}.
Proof.
  destruct (failed_write_then_retry Sample.configured
              (with_sheet Sample.checkout_env (Some (mkError "quota exceeded")))
              Sample.checkout_env Sample.signed Sample.checkout_event
              (mkError "quota exceeded") Sample.world0)
    as (Hfirst & _).
  - vm_compute. reflexivity.
  - vm_compute. reflexivity.
  - vm_compute. reflexivity.
  - reflexivity.
  - reflexivity.
  - exact Hfirst.
Defined.

(** X12.  The calls of one delivery follow a fixed order.  [server.js]
    makes no call, or the signature check alone, or the signature check
    followed by one append; it never lists line items.  The line-item
    program makes the signature check, then at most one listing with limit
    10, then at most one append. *)
Theorem calls_of_a_delivery :
  forall (penv : ProcessEnv) (env : Env) (req : Request) (w : World),
    let verification :=
      ConstructEvent (body req) (stripe_signature req)
        (STRIPE_WEBHOOK_SECRET penv) in
    (exists calls,
        trace (snd (Server.stripe_webhook penv env req w)) = trace w ++ calls /\
        (calls = [] \/ calls = [verification] \/
         exists r, calls = [verification; SheetsAppend r])) /\
    (exists calls,
        trace (snd (LineItemVariant.stripe_webhook penv env req w))
          = trace w ++ calls /\
        (calls = [verification] \/
         (exists sid, calls = [verification; ListLineItems sid 10]) \/
         (exists sid r,
             calls = [verification; ListLineItems sid 10; SheetsAppend r]))).
Proof.
  intros penv env req w verification. split.
  - destruct (server_route_shape penv env req w) as (resp & calls & rows & -> & H).
    exists calls. split; [reflexivity |].
    destruct H as [(_ & -> & _) | [(_ & -> & _) | [(_ & -> & _) |
                   [(r & _ & -> & _) | (r & row & _ & -> & _)]]]]; eauto.
  - destruct (line_item_route_shape penv env req w)
      as (resp & calls & rows & -> & H).
    exists calls. split; [reflexivity |].
    destruct H as [(_ & -> & _) | [(_ & -> & _) | [(sid & _ & -> & _) |
                   [(sid & r & _ & -> & _) | (sid & r & row & _ & -> & _)]]]];
      eauto 6.
Qed.

(** X13.  In the line-item program a checkout-completed event whose listing
    call throws, or whose first line item has no price object, is answered
    500 "Server error" after the listing call, with no append call and no
    new row. *)
Theorem listing_failure_is_server_error :
  forall (penv : ProcessEnv) (env : Env) (req : Request) (event : Event)
         (w : World),
    stripe_constructEvent env (body req) (stripe_signature req)
      (STRIPE_WEBHOOK_SECRET penv) = inl event ->
    type event = checkout_session_completed ->
    let session := object (data event) in
    ((exists e, stripe_listLineItems env (id session) 10 = inr e) \/
     (exists items first rest,
         stripe_listLineItems env (id session) 10 = inl items /\
         li_data items = Some (first :: rest) /\ price first = None)) ->
    LineItemVariant.stripe_webhook penv env req w
    = (Returned {| status := 500; payload := Send "Server error" |},
       {| ledger := ledger w;
          trace := trace w
                   ++ [ConstructEvent (body req) (stripe_signature req)
                         (STRIPE_WEBHOOK_SECRET penv);
                       ListLineItems (id session) 10] |}).
Proof.
  intros penv env req event w Hv Hty session Hfail.
  rewrite (line_item_webhook_checkout penv env req event w Hv Hty). cbv zeta.
  fold session.
  destruct Hfail as [(e & He) | (items & first & rest & Hi & Hd & Hp)].
  - rewrite (line_items_fetch_failed penv env session e _ He).
    unfold record_call; simpl. now rewrite <- app_assoc.
  - rewrite (line_items_null_price penv env session items first rest _ Hi Hd Hp).
    unfold record_call; simpl. now rewrite <- app_assoc.
Qed.

Lemma listing_failure_is_server_error_witness :
  fst (LineItemVariant.stripe_webhook Sample.configured
         (Sample.env Sample.checkout_event
            {| li_data := Some [ {| price := None |} ] |})
         Sample.signed Sample.world0)
  = Returned {| status := 500; payload := Send "Server error" |}.
Proof.
  rewrite (listing_failure_is_server_error Sample.configured
             (Sample.env Sample.checkout_event
                {| li_data := Some [ {| price := None |} ] |})
             Sample.signed Sample.checkout_event Sample.world0).
  - reflexivity.
  - vm_compute. reflexivity.
  - reflexivity.
  - right. eexists _, _, _. repeat split; reflexivity.
Defined.

(** * Further properties of the start of [server.js] *)

(** X14.  When [GOOGLE_SERVICE_ACCOUNT_KEY] holds a non-empty value the
    credentials come from it alone: the start goes the same way whatever
    files exist, and a value that does not parse as JSON ends the process
    with code 1 even if a valid credentials file is present. *)
Theorem credentials_variable_preferred :
  forall (penv : ProcessEnv) (host : Host) (key : string),
    GOOGLE_SERVICE_ACCOUNT_KEY penv = Some key ->
    key <> "" ->
    (forall files : string -> option string,
        Server.boot penv (with_files host files) = Server.boot penv host) /\
    (JSON_parse_ok host key = false -> Server.boot penv host = Exit 1).
Proof.
  intros penv host key Hkey Hne.
  assert (Hok : forall h, Server.credentials_ok penv h = JSON_parse_ok h key).
  { intros h. unfold Server.credentials_ok. rewrite Hkey.
    unfold truthy_str. now destruct (decide (key = "")). }
  split.
  - intros files. unfold Server.boot. now rewrite !Hok.
  - intros Hbad. unfold Server.boot. rewrite Hok, Hbad.
    now destruct (truthy (STRIPE_SECRET_KEY penv)).
Qed.

Lemma credentials_variable_preferred_witness :
  Server.boot
    {| PORT := None;
       STRIPE_SECRET_KEY := Some "sk_test_51";
       STRIPE_WEBHOOK_SECRET := Some "whsec_test";
       GOOGLE_SHEETS_SPREADSHEET_ID := Some "sheet-founders";
       GOOGLE_SHEETS_TAB_NAME := None;
       GOOGLE_SERVICE_ACCOUNT_KEY := Some "{not json";
       GOOGLE_SERVICE_ACCOUNT_KEY_JSON := None |}
    {| readFileSync := fun _ => Some "{}";
       JSON_parse_ok := fun text => bool_decide (text = "{}");
       listen_ok := fun _ => true |}
  = Exit 1.
Proof.
  apply (credentials_variable_preferred _ _ "{not json").
  - reflexivity.
  - discriminate.
  - vm_compute. reflexivity.
Defined.

(** X15.  Without a value in [GOOGLE_SERVICE_ACCOUNT_KEY] (unset or empty)
    the process ends up listening exactly when the secret API key is set,
    the file named by [GOOGLE_SERVICE_ACCOUNT_KEY_JSON], by default
    [./service-account.json], can be read and parses, and [app.listen]
    succeeds on [PORT], by default 8080; in particular a port [app.listen]
    refuses ends the process.  Whenever the process ends at start, the exit
    code is 1. *)
Theorem start_with_credentials_file :
  forall (penv : ProcessEnv) (host : Host),
    (truthy (GOOGLE_SERVICE_ACCOUNT_KEY penv) = false ->
     forall port : string,
       Server.boot penv host = Listening port <->
       truthy (STRIPE_SECRET_KEY penv) = true /\
       (exists raw,
           readFileSync host
             (or_str (GOOGLE_SERVICE_ACCOUNT_KEY_JSON penv) "./service-account.json")
           = Some raw /\
           JSON_parse_ok host raw = true) /\
       port = or_str (PORT penv) "8080" /\
       listen_ok host port = true) /\
    (listen_ok host (or_str (PORT penv) "8080") = false ->
     Server.boot penv host = Exit 1) /\
    (forall code : Z, Server.boot penv host = Exit code -> code = 1%Z).
Proof.
  intros penv host. split; [| split].
  - intros Hunset port.
    assert (Hok : Server.credentials_ok penv host
                  = Server.credentials_from_file penv host).
    { unfold Server.credentials_ok. unfold truthy in Hunset.
      destruct (GOOGLE_SERVICE_ACCOUNT_KEY penv) as [key |]; [| reflexivity].
      now rewrite Hunset. }
    unfold Server.boot. rewrite Hok. unfold Server.credentials_from_file.
    destruct (truthy (STRIPE_SECRET_KEY penv)); simpl.
    2:{ split; [discriminate | intros (H & _); discriminate]. }
    destruct (readFileSync host _) as [raw |] eqn:Hfile.
    2:{ simpl. split; [discriminate |].
        intros (_ & (raw & Hraw & _) & _). discriminate. }
    destruct (JSON_parse_ok host raw) eqn:Hparse; simpl.
    2:{ split; [discriminate |].
        intros (_ & (raw' & [= <-] & Hp) & _). congruence. }
    destruct (listen_ok host (or_str (PORT penv) "8080")) eqn:Hlisten.
    + split.
      * intros [= <-]. repeat split; [now exists raw | exact Hlisten].
      * intros (_ & _ & -> & _). reflexivity.
    + split; [discriminate |].
      intros (_ & _ & -> & Hl). congruence.
  - intros Hl. unfold Server.boot. rewrite Hl.
    destruct (negb (truthy (STRIPE_SECRET_KEY penv))); [reflexivity |].
    now destruct (negb (Server.credentials_ok penv host)).
  - intros code. unfold Server.boot.
    destruct (negb (truthy (STRIPE_SECRET_KEY penv))); [now intros [= <-] |].
    destruct (negb (Server.credentials_ok penv host)); [now intros [= <-] |].
    destruct (listen_ok host _); [discriminate | now intros [= <-]].
Qed.

Lemma start_with_credentials_file_witness :
  Server.boot
    {| PORT := Some "3000";
       STRIPE_SECRET_KEY := Some "sk_test_51";
       STRIPE_WEBHOOK_SECRET := None;
       GOOGLE_SHEETS_SPREADSHEET_ID := None;
       GOOGLE_SHEETS_TAB_NAME := None;
       GOOGLE_SERVICE_ACCOUNT_KEY := Some "";
       GOOGLE_SERVICE_ACCOUNT_KEY_JSON := None |}
    {| readFileSync := fun path =>
         if bool_decide (path = "./service-account.json") then Some "{}" else None;
       JSON_parse_ok := fun text => bool_decide (text = "{}");
       listen_ok := fun port => bool_decide (port = "3000") |}
  = Listening "3000".
Proof.
  apply start_with_credentials_file.
  - reflexivity.
  - split; [reflexivity |]. split; [| split; reflexivity].
    exists "{}". split; vm_compute; reflexivity.
Defined.

(** * Further properties of the ledger record *)

(** X16.  The e-mail recorded by [server.js] is the one of
    [customer_details] when there is a non-empty one, else a non-empty
    [customer_email], else the empty string.  The line-item program records
    the same address, except that it writes "unknown" where [server.js]
    writes the empty string, so its e-mail cell is never blank. *)
Theorem email_precedence :
  forall (env : Env) (session : Session),
    let server_email := Server.email (Server.founderRecord env session) in
    (forall d x, customer_details session = Some d -> cd_email d = Some x ->
                 x <> "" -> server_email = x) /\
    (customer_details session = None \/
     (exists d, customer_details session = Some d /\ truthy (cd_email d) = false) ->
     server_email = or_str (customer_email session) "") /\
    LineItemVariant.founder_email session <> "" /\
    LineItemVariant.founder_email session
      = (if decide (server_email = "") then "unknown" else server_email).
Proof.
  intros env session server_email.
  unfold server_email, Server.founderRecord; simpl.
  unfold LineItemVariant.founder_email.
  set (details := match customer_details session with
                  | Some d => cd_email d
                  | None => None
                  end).
  repeat split.
  - intros d x Hd Hx Hne. unfold details. rewrite Hd, Hx.
    unfold or_opt, or_str, truthy_str.
    destruct (decide (x = "")); [contradiction | simpl].
    now destruct (decide (x = "")).
  - intros Hnone.
    assert (Hd : truthy details = false).
    { unfold details. destruct Hnone as [-> | (d & -> & Hd)]; [reflexivity | exact Hd]. }
    unfold or_opt, or_str, truthy in *.
    destruct details as [x |]; [now rewrite Hd | reflexivity].
  - unfold or_opt, or_str, truthy_str.
    destruct details as [x |];
      [destruct (decide (x = "")) as [-> | Hx] |];
      try destruct (customer_email session) as [y |];
      repeat (simpl; match goal with
                     | |- context [decide (?s = "")] =>
                         destruct (decide (s = ""))
                     end);
      simpl; congruence.
  - unfold or_opt, or_str, truthy_str.
    destruct details as [x |];
      [destruct (decide (x = "")) as [-> | Hx] |];
      try destruct (customer_email session) as [y |];
      repeat (simpl; match goal with
                     | |- context [decide (?s = "")] =>
                         destruct (decide (s = ""))
                     end);
      simpl; congruence.
Qed.

Lemma email_precedence_witness :
  Server.email
    (Server.founderRecord Sample.checkout_env
       {| id := "cs_test_x16";
          customer_details := Some {| cd_email := Some "ada@example.com" |};
          customer_email := Some "old@example.com";
          amount_total := Some 25000%Z;
          metadata := None;
          customer := None |})
  = "ada@example.com".
Proof.
  eapply email_precedence; [reflexivity | reflexivity | discriminate].
Defined.
